(** * go-cross-build: the entrypoint of the cross-compilation action

    A shallow embedding of [entrypoint.go].  The program is a sequential
    orchestration of external tools, so the embedding is a small monad over an
    abstract operating system: every subprocess the program starts (with its
    result), every existence check and every line it prints is recorded, in
    order, next to the outcome of the run (normal return, [os.Exit] or a
    runtime panic). *)

From Stdlib Require Import String Ascii List Bool Arith ZArith Lia.
From stdpp Require Import base option gmap strings.
Import ListNotations.
Local Open Scope string_scope.
Local Open Scope list_scope.

(** ** Go strings

    A Go string is a sequence of bytes; it is modelled as [string]. *)

Module Strings.

(** The byte '\n'. *)
Definition nl : string := String (ascii_of_nat 10) EmptyString.

(** [strings.ReplaceAll s old new] where [old] is a single byte (the only
    use in the program is [old = " "], [new = ""]). *)
Fixpoint ReplaceAll (s : string) (old : ascii) (new : string) : string :=
  match s with
  | EmptyString => EmptyString
  | String c rest =>
      if Ascii.eqb c old then new +:+ ReplaceAll rest old new
      else String c (ReplaceAll rest old new)
  end.

(** [strings.Split s sep] where [sep] is a single byte: the fields between
    the occurrences of [sep]; one more field than there are separators, so
    never an empty slice. *)
Fixpoint Split (s : string) (sep : ascii) : list string :=
  match s with
  | EmptyString => [EmptyString]
  | String c rest =>
      if Ascii.eqb c sep then EmptyString :: Split rest sep
      else match Split rest sep with
           | [] => [String c EmptyString]
           | f :: fs => String c f :: fs
           end
  end.

(** [strings.Count s sep] for a single byte. *)
Fixpoint Count (s : string) (sep : ascii) : nat :=
  match s with
  | EmptyString => 0
  | String c rest => (if Ascii.eqb c sep then 1 else 0) + Count rest sep
  end.

(** [strings.Join elems sep]. *)
Fixpoint Join (elems : list string) (sep : string) : string :=
  match elems with
  | [] => EmptyString
  | [e] => e
  | e :: rest => e +:+ sep +:+ Join rest sep
  end.

(** A byte below [utf8.RuneSelf] (0x80). *)
Definition isASCIIbyte (c : ascii) : bool := Nat.ltb (nat_of_ascii c) 128.

Fixpoint isASCII (s : string) : bool :=
  match s with
  | EmptyString => true
  | String c rest => isASCIIbyte c && isASCII rest
  end.

(** 'A' <= c <= 'Z' becomes c + ('a' - 'A'). *)
Definition lowerByte (c : ascii) : ascii :=
  let n := nat_of_ascii c in
  if Nat.leb 65 n && Nat.leb n 90 then ascii_of_nat (n + 32) else c.

Fixpoint lowerASCII (s : string) : string :=
  match s with
  | EmptyString => EmptyString
  | String c rest => String (lowerByte c) (lowerASCII rest)
  end.

(** [strings.ToLower]: a string of ASCII bytes only is lowered byte by byte;
    any other string goes through [strings.Map(unicode.ToLower, s)], which
    depends on the Unicode tables and is a parameter [mapLower] here. *)
Definition ToLower (mapLower : string -> string) (s : string) : string :=
  if isASCII s then lowerASCII s else mapLower s.

End Strings.

(** ** Path names (package [path/filepath], Unix flavour)

    The action runs in a Linux container: the separator is '/', there are no
    volume names. *)

Module Filepath.

Definition Separator : ascii := "/"%char.

(** The inner loop of the ".." case of [Clean]: the output buffer is kept
    reversed (its head is the last byte written); [out.w--], then keep
    dropping while [out.w > dotdot] and the byte at [out.w] is no
    separator. *)
Fixpoint backtrack (out : list ascii) (dotdot : nat) : list ascii :=
  match out with
  | [] => []
  | b :: out' =>
      if Nat.ltb dotdot (length out') && negb (Ascii.eqb b Separator)
      then backtrack out' dotdot
      else out'
  end.

(** The ".." case of [Clean]. *)
Definition dotdotElem (rooted : bool) (out : list ascii) (dotdot : nat)
  : list ascii * nat :=
  if Nat.ltb dotdot (length out) then (backtrack out dotdot, dotdot)
  else if negb rooted then
    let out1 := if Nat.ltb 0 (length out) then Separator :: out else out in
    let out2 := "."%char :: "."%char :: out1 in
    (out2, length out2)
  else (out, dotdot).

(** The main loop of [Clean], reading [p] from its current position.
    [cleanLoop] is at the start of a path element, [copyElem] inside a real
    one (Go's inner copy loop; the separator that ends the element is
    skipped here instead of by the next round of the outer loop). *)
Fixpoint cleanLoop (rooted : bool) (p : string) (out : list ascii) (dotdot : nat)
  {struct p} : list ascii :=
  match p with
  | EmptyString => out
  | String c rest =>
      if Ascii.eqb c Separator then cleanLoop rooted rest out dotdot
      else
        let real :=
          let out1 :=
            if (rooted && negb (Nat.eqb (length out) 1))
               || (negb rooted && negb (Nat.eqb (length out) 0))
            then Separator :: out else out in
          copyElem rooted rest (c :: out1) dotdot in
        if Ascii.eqb c "."%char then
          match rest with
          | EmptyString => out
          | String c1 rest1 =>
              if Ascii.eqb c1 Separator then cleanLoop rooted rest out dotdot
              else if Ascii.eqb c1 "."%char then
                match rest1 with
                | EmptyString =>
                    fst (dotdotElem rooted out dotdot)
                | String c2 _ =>
                    if Ascii.eqb c2 Separator then
                      let '(out', dotdot') := dotdotElem rooted out dotdot in
                      cleanLoop rooted rest1 out' dotdot'
                    else real
                end
              else real
          end
        else real
  end
with copyElem (rooted : bool) (p : string) (out : list ascii) (dotdot : nat)
  {struct p} : list ascii :=
  match p with
  | EmptyString => out
  | String c rest =>
      if Ascii.eqb c Separator then cleanLoop rooted rest out dotdot
      else copyElem rooted rest (c :: out) dotdot
  end.

(** [filepath.Clean]. *)
Definition Clean (path : string) : string :=
  match path with
  | EmptyString => "."
  | String c rest =>
      let rooted := Ascii.eqb c Separator in
      let out :=
        if rooted then cleanLoop true rest [Separator] 1
        else cleanLoop false path [] 0 in
      match out with
      | [] => "."
      | _ => string_of_list_ascii (rev out)
      end
  end.

(** [filepath.Join]: the elements from the first non-empty one on, joined
    by the separator and cleaned; the empty string when all are empty. *)
Fixpoint Join (elem : list string) : string :=
  match elem with
  | [] => EmptyString
  | EmptyString :: rest => Join rest
  | _ :: _ => Clean (Strings.Join elem (String Separator EmptyString))
  end.

End Filepath.

(** ** The operating system seen from the program *)

(** An [exec.Cmd]: the program name, the arguments after it, the environment
    ([None]: that of the calling process) and the working directory (the empty
    string: that of the calling process). *)
Record Cmd := mkCmd {
  Name : string;
  Args : list string;
  Env : option (list string);
  Dir : string
}.

(** [exec.Command(name, arg...)]. *)
Definition Command (name : string) (arg : list string) : Cmd :=
  {| Name := name; Args := arg; Env := None; Dir := "" |}.

Definition withEnv (c : Cmd) (env : list string) : Cmd :=
  {| Name := Name c; Args := Args c; Env := Some env; Dir := Dir c |}.

Definition withDir (c : Cmd) (dir : string) : Cmd :=
  {| Name := Name c; Args := Args c; Env := Env c; Dir := dir |}.

(** What a finished subprocess hands back: the bytes of its standard output
    and standard error, and the error of [Run]/[Output] ([None] for nil; the
    command could not start or returned a non-zero status otherwise, with the
    text of the error). *)
Record ExecResult := mkExecResult {
  Stdout : string;
  Stderr : string;
  Err : option string
}.

(** The error of [os.Stat]. *)
Inductive StatError :=
| ErrNotExist
| ErrOther (msg : string).

(** [os.IsNotExist]. *)
Definition IsNotExist (err : StatError) : bool :=
  match err with
  | ErrNotExist => true
  | ErrOther _ => false
  end.

(** How the result of [os.Stat] is read by [fileExists] below; the
    properties of [fileExists] are stated with it. *)
Definition statAnswer (st : option StatError) : bool :=
  match st with
  | Some err => negb (IsNotExist err)
  | None => true
  end.

(** What [filepath.Walk] can see below a path: [os.Lstat] fails, or the path
    is not a directory, or it is a directory whose names cannot be read, or a
    directory with its entries in lexical order. *)
#[warnings="-register-all"]
Inductive WalkNode :=
| NodeLstatErr (e : string)
| NodeFile
| NodeDirErr (e : string)
| NodeDir (entries : list (string * WalkNode)).

(** The interface of the machine the program runs on.  [S] is the state of
    everything outside the process (the file system first of all); running a
    subprocess is the only operation that changes it. *)
Class OS (S : Type) := {
  (** [os.Getwd], the empty string when it fails *)
  os_Getwd : S -> string;
  (** [os.Stat]: [None] when the file information is there *)
  os_Stat : S -> string -> option StatError;
  (** [exec.LookPath]: where a program name resolves to *)
  os_LookPath : S -> string -> option string;
  (** start a command and wait for it *)
  os_Run : Cmd -> S -> ExecResult * S;
  (** the tree [filepath.Walk] finds at a root *)
  os_Tree : S -> string -> WalkNode
}.

(** ** Runs of the program *)

(** Go's runtime panics that the program can raise. *)
Inductive RuntimeError :=
| IndexOutOfRange (index length : nat).

(** How a piece of the program ends: it returns, or the process exits, or the
    goroutine panics. *)
Inductive Res (A : Type) :=
| Ret (a : A)
| Exit (code : Z)
| Panic (e : RuntimeError).
Arguments Ret {A} a.
Arguments Exit {A} code.
Arguments Panic {A} e.

(** What the program does to the outside and asks of it, in order. *)
Inductive Event :=
| EvExec (c : Cmd) (r : ExecResult)
| EvStat (path : string) (r : option StatError)
| EvPrint (text : string).

(** The subprocesses of a run with their results. *)
Fixpoint execs (t : list Event) : list (Cmd * ExecResult) :=
  match t with
  | [] => []
  | EvExec c r :: t' => (c, r) :: execs t'
  | _ :: t' => execs t'
  end.

(** The existence checks of a run with their results. *)
Fixpoint stats (t : list Event) : list (string * option StatError) :=
  match t with
  | [] => []
  | EvStat path r :: t' => (path, r) :: stats t'
  | _ :: t' => stats t'
  end.

(** The commands of a run. *)
Definition commands (t : list Event) : list Cmd := map fst (execs t).

(** A computation: from the state of the machine to an outcome, the new state
    and the events of this piece of the run. *)
Definition M (S A : Type) : Type := S -> Res A * S * list Event.

#[global] Instance M_ret {S} : MRet (M S) := fun A a s => (Ret a, s, []).

#[global] Instance M_bind {S} : MBind (M S) := fun A B f m s =>
  match m s with
  | (Ret a, s1, t1) => let '(r, s2, t2) := f a s1 in (r, s2, t1 ++ t2)
  | (Exit code, s1, t1) => (Exit code, s1, t1)
  | (Panic e, s1, t1) => (Panic e, s1, t1)
  end.

(** The three components of a run. *)
Definition outcome {S A : Type} (run : Res A * S * list Event) : Res A := fst (fst run).
Definition final {S A : Type} (run : Res A * S * list Event) : S := snd (fst run).
Definition events {S A : Type} (run : Res A * S * list Event) : list Event := snd run.

(** A run after the events [t]. *)
Definition prepend {S A : Type} (t : list Event) (run : Res A * S * list Event)
  : Res A * S * list Event :=
  (outcome run, final run, t ++ events run).

(** [wp m s Q]: the run of [m] from the state [s] satisfies [Q]. *)
Definition wp {S A : Type} (m : M S A) (s : S) (Q : Res A * S * list Event -> Prop)
  : Prop :=
  Q (m s).

(** ** [filepath.Walk] *)

Record FileInfo := { IsDir : bool }.

(** The errors of a walk: the two sentinels and everything else. *)
Inductive WalkErr :=
| SkipDir
| SkipAll
| OtherErr (msg : string).

Definition WalkErr_Error (e : WalkErr) : string :=
  match e with
  | SkipDir => "skip this directory"
  | SkipAll => "skip everything and stop the walk"
  | OtherErr msg => msg
  end.

Definition isSkipDir (e : option WalkErr) : bool :=
  match e with Some SkipDir => true | _ => false end.

Definition isSkipAll (e : option WalkErr) : bool :=
  match e with Some SkipAll => true | _ => false end.

Definition nodeIsDir (n : WalkNode) : bool :=
  match n with
  | NodeDir _ | NodeDirErr _ => true
  | _ => false
  end.

Section Walk.

(** [A] is the state the callback closes over. *)
Context {A : Type}.

(** [filepath.WalkFunc]: path, file information (nil if [Lstat] failed), the
    error met on this path; returns the error that steers the walk. *)
Definition WalkFunc : Type :=
  string -> option FileInfo -> option WalkErr -> A -> A * option WalkErr.

Variable walkFn : WalkFunc.

(** [walk]: the recursive descent.  The inner [fix] is the loop over the
    names of a directory. *)
Fixpoint walk (path : string) (info : WalkNode) (acc : A) {struct info}
  : A * option WalkErr :=
  match info with
  | NodeLstatErr e => walkFn path None (Some (OtherErr e)) acc
  | NodeFile => walkFn path (Some {| IsDir := false |}) None acc
  | NodeDirErr e =>
      (* readDirNames failed: walk returns whatever walkFn returns *)
      walkFn path (Some {| IsDir := true |}) (Some (OtherErr e)) acc
  | NodeDir entries =>
      let '(acc1, err1) := walkFn path (Some {| IsDir := true |}) None acc in
      match err1 with
      | Some _ => (acc1, err1)
      | None =>
          (fix loop (names : list (string * WalkNode)) (acc : A)
             : A * option WalkErr :=
             match names with
             | [] => (acc, None)
             | (name, fileInfo) :: rest =>
                 let filename := Filepath.Join [path; name] in
                 match fileInfo with
                 | NodeLstatErr e =>
                     let '(acc', err) :=
                       walkFn filename None (Some (OtherErr e)) acc in
                     match err with
                     | Some e' =>
                         if negb (isSkipDir err) then (acc', err)
                         else loop rest acc'
                     | None => loop rest acc'
                     end
                 | _ =>
                     let '(acc', err) := walk filename fileInfo acc in
                     match err with
                     | Some e' =>
                         if negb (nodeIsDir fileInfo) || negb (isSkipDir err)
                         then (acc', err)
                         else loop rest acc'
                     | None => loop rest acc'
                     end
                 end
             end) entries acc1
      end
  end.

(** [filepath.Walk root fn], on the tree that [os.Lstat] and the directory
    reads show at [root]. *)
Definition Walk (tree : WalkNode) (root : string) (acc : A)
  : A * option WalkErr :=
  let '(acc', err) :=
    match tree with
    | NodeLstatErr e => walkFn root None (Some (OtherErr e)) acc
    | _ => walk root tree acc
    end in
  if isSkipDir err || isSkipAll err then (acc', None) else (acc', err).

End Walk.

(** ** The program *)

Section Program.

Context {S : Type} `{OS S}.

(** The environment of the process, as (name, value) pairs; it does not
    change during a run. *)
Variable environ : list (string * string).

(** [strings.Map(unicode.ToLower, _)], see [Strings.ToLower]. *)
Variable mapLower : string -> string.

(** [os.Getenv]: the value of the first entry with that name, the empty
    string when there is none. *)
Definition Getenv (key : string) : string :=
  match find (fun kv => String.eqb (fst kv) key) environ with
  | Some kv => snd kv
  | None => ""
  end.

(** [os.Environ]: the entries in the form "key=value". *)
Definition Environ : list string :=
  map (fun kv => fst kv +:+ "=" +:+ snd kv) environ.

(** Reading the state of the machine. *)
Definition gets {A : Type} (f : S -> A) : M S A := fun s => (Ret (f s), s, []).

(** [os.Exit]. *)
Definition os_Exit {A : Type} (code : Z) : M S A := fun s => (Exit code, s, []).

(** A runtime panic. *)
Definition panic {A : Type} (e : RuntimeError) : M S A := fun s => (Panic e, s, []).

(** [fmt.Println]: the operands separated by spaces, then a newline. *)
Definition Println (operands : list string) : M S unit :=
  fun s => (Ret tt, s, [EvPrint (Strings.Join operands " " +:+ Strings.nl)]).

(** [fmt.Printf] once the verbs are filled in. *)
Definition Printf (text : string) : M S unit :=
  fun s => (Ret tt, s, [EvPrint text]).

(** [Cmd.Run] and [Cmd.Output]: both start the command and wait;
    the caller reads the error and, where it captured them, the streams. *)
Definition Run (c : Cmd) : M S ExecResult :=
  fun s => let '(r, s') := os_Run c s in (Ret r, s', [EvExec c r]).

(** [os.Stat]. *)
Definition Stat (path : string) : M S (option StatError) :=
  fun s => (Ret (os_Stat s path), s, [EvStat path (os_Stat s path)]).

(** [Cmd.String]: the resolved program (names with a separator are not
    looked up; the name itself if the lookup fails) and the arguments. *)
Definition Cmd_String (c : Cmd) : M S string :=
  gets (fun s =>
    let path :=
      if Nat.eqb (Strings.Count (Name c) Filepath.Separator) 0
      then default (Name c) (os_LookPath s (Name c))
      else Name c in
    Strings.Join (path :: Args c) " ").

(** Slice indexing with its bounds check. *)
Definition index (l : list string) (i : nat) : M S string :=
  match nth_error l i with
  | Some x => mret x
  | None => panic (IndexOutOfRange i (length l))
  end.

(** check if file exists (relative to the current directory) *)
Definition fileExists (path : string) : M S bool :=
  (* get current directory *)
  cwd ← gets os_Getwd;
  (* get an absolute path of the file *)
  let absPath := Filepath.Join [cwd; path] in
  (* access file information *)
  st ← Stat absPath;
  match st with
  | Some err => mret (negb (IsNotExist err))
  | None => mret true
  end.

(** copy file using `cp` command *)
Definition copyFile (src dest : string) : M S unit :=
  r ← Run (Command "cp" [src; dest]);
  match Err r with
  | Some _ =>
      Println ["An error occurred during copy operation:"; src; "=>"; dest];;
      os_Exit 1
  | None => mret tt
  end.

(** The pure parts of [build], under the names of its local variables. *)

Definition buildFileName (inputName platformKernel platformArch : string)
  (compress : bool) : string :=
  let buildFileName := inputName +:+ "-" +:+ platformKernel +:+ "-" +:+ platformArch in
  let buildFileName := if compress then inputName else buildFileName in
  if String.eqb platformKernel "windows" then buildFileName +:+ ".exe"
  else buildFileName.

Definition destDirPath (destDir : string) : string :=
  Filepath.Join [Getenv "GITHUB_WORKSPACE"; destDir].

Definition packagePath (packageName : string) : string :=
  if String.eqb packageName "" then "." else "./" +:+ packageName.

Definition gzFileName (inputName platformKernel platformArch : string) : string :=
  inputName +:+ "-" +:+ platformKernel +:+ "-" +:+ platformArch +:+ ".tar.gz".

(** The `go build` command of a target. *)
Definition buildCmd (packageName destDir platformKernel platformArch ldflags : string)
  (compress : bool) : Cmd :=
  let buildFilePath :=
    Filepath.Join [destDirPath destDir;
                   buildFileName (Getenv "INPUT_NAME") platformKernel platformArch compress] in
  let buildOptions :=
    ["build"; "-buildmode"; "exe"; "-ldflags"; ldflags; "-o"; buildFilePath;
     packagePath packageName] in
  withEnv (Command "go" buildOptions)
    (Environ ++ ["GOOS=" +:+ platformKernel; "GOARCH=" +:+ platformArch]).

(** The `tar` command, run in the destination directory. *)
Definition tarCmd (destDir gzFileName : string) (includeFiles : list string) : Cmd :=
  let tarOptions := ["-cvzf"; gzFileName] ++ includeFiles in
  withDir (Command "tar" tarOptions) (destDirPath destDir).

(** The cleanup command, run in the destination directory. *)
Definition cleanCmd (destDir : string) (includeFiles : list string) : Cmd :=
  withDir (Command "rm" (["-f"] ++ includeFiles)) (destDirPath destDir).

(** The command of the last step of packaging. *)
Definition md5Cmd (destDir : string) : Cmd :=
  withDir (Command "/bin/sh" ["-c"; "'pwd && ls -la'"]) (destDirPath destDir).

(** build the package for a platform *)
Definition build (packageName destDir : string) (platform : gmap string string)
  (ldflags : string) (compress : bool) : M S unit :=
  (* platform config *)
  let platformKernel := default "" (platform !! "kernel") in
  let platformArch := default "" (platform !! "arch") in
  (* binary executable file path *)
  let inputName := Getenv "INPUT_NAME" in
  let buildFileName := buildFileName inputName platformKernel platformArch compress in
  let destDirPath := destDirPath destDir in
  let buildCmd := buildCmd packageName destDir platformKernel platformArch ldflags compress in
  (* execute `go build` command *)
  str ← Cmd_String buildCmd;
  Println ["Creating a build using :"; str];;
  r ← Run buildCmd;
  match Err r with
  | Some err => Println ["An error occurred during build:"; err];; os_Exit 1
  | None => Printf (Stdout r +:+ Strings.nl)
  end;;
  (* create a compressed `.tar.gz` file *)
  if compress then
    let gzFileName := gzFileName inputName platformKernel platformArch in
    (* file to compress (default: build file) *)
    let includeFiles := [buildFileName] in
    (* copy "README.md" file inside destination directory *)
    readme ← fileExists "README.md";
    includeFiles ←
      (if (readme : bool) then
         copyFile "README.md" (Filepath.Join [destDirPath; "README.md"]);;
         mret (includeFiles ++ ["README.md"])
       else mret includeFiles);
    (* copy "LICENSE" file inside destination directory *)
    license ← fileExists "LICENSE";
    includeFiles ←
      (if (license : bool) then
         copyFile "LICENSE" (Filepath.Join [destDirPath; "LICENSE"]);;
         mret (includeFiles ++ ["LICENSE"])
       else mret includeFiles);
    (* execute `tar` command *)
    let tarCmd := tarCmd destDir gzFileName includeFiles in
    str ← Cmd_String tarCmd;
    Println ["Compressing build file using:"; str];;
    r ← Run tarCmd;
    match Err r with
    | Some err => Println ["An error occurred during compression:"; err];; os_Exit 1
    | None => mret tt
    end;;
    (* start cleanup process *)
    let cleanCmd := cleanCmd destDir includeFiles in
    str ← Cmd_String cleanCmd;
    Println ["Performing cleanup operation using:"; str];;
    r ← Run cleanCmd;
    match Err r with
    | Some err => Println ["An error occurred during cleaup:"; err];; os_Exit 1
    | None => mret tt
    end;;
    let md5Cmd := md5Cmd destDir in
    str ← Cmd_String md5Cmd;
    Println ["Create md5 checksum file:"; str];;
    r ← Run md5Cmd;
    match Err r with
    | Some err =>
        Println ["An error occurred during md5 creation:"; err];;
        Printf ("md5 output: " +:+ Stderr r);;
        os_Exit 1
    | None => mret tt
    end;;
    Printf ("md5 output: " +:+ Stdout r)
  else mret tt.

(** The callback of the final walk: it appends the path to [files]
    (the slice it closes over) and returns nil, whatever [info] and [err]
    are. *)
Definition collect : WalkFunc (A := list string) :=
  fun path info err files => (files ++ [path], None).

(** should compress build file *)
Definition parseCompress (inputCompress : string) : bool :=
  String.eqb (Strings.ToLower mapLower inputCompress) "true".

(** split platform by `/` (and clean all whitespaces) *)
Definition platformSpec (platform : string) : list string :=
  Strings.Split (Strings.ReplaceAll platform " " "") "/".

(** create a `map` of `kernel` and `arch` *)
Definition platformMap (platform : string) : M S (gmap string string) :=
  let platformSpec := platformSpec platform in
  kernel ← index platformSpec 0;
  arch ← index platformSpec 1;
  mret (<["arch" := arch]> {["kernel" := kernel]}).

(** for each platform, execute `build` function *)
Fixpoint forPlatforms (packageName destDir : string) (platforms : list string)
  (inputLdflags : string) (compress : bool) : M S unit :=
  match platforms with
  | [] => mret tt
  | platform :: rest =>
      platformMap ← platformMap platform;
      build packageName destDir platformMap inputLdflags compress;;
      forPlatforms packageName destDir rest inputLdflags compress
  end.

(** The line that hands the artifact list to the workflow. *)
Definition setOutput (files : list string) : string :=
  "::set-output name=files::" +:+ Strings.Join files " ".

Definition main : M S unit :=
  (* get input variables from action *)
  let inputPlatforms := Getenv "INPUT_PLATFORMS" in
  let inputPackage := Getenv "INPUT_PACKAGE" in
  let inputCompress := Getenv "INPUT_COMPRESS" in
  let inputDest := Getenv "INPUT_DEST" in
  let inputLdflags := Getenv "INPUT_LDFLAGS" in
  (* package name to build *)
  let packageName := Strings.ReplaceAll inputPackage " " "" in
  (* destination directory *)
  let destDir := Strings.ReplaceAll inputDest " " "" in
  (* split platform names by comma (`,`) *)
  let platforms := Strings.Split inputPlatforms "," in
  (* should compress build file *)
  let compress := parseCompress inputCompress in
  forPlatforms packageName destDir platforms inputLdflags compress;;
  (* list files inside destination directory *)
  r ← Run (Command "ls" ["-alh"; destDir]);
  match Err r with
  | Some err => Println ["An error occurred during ls operation:"; err];; os_Exit 1
  | None => Println ["--- BUILD FILES ---"];; Printf (Stdout r +:+ Strings.nl)
  end;;
  tree ← gets (fun s => os_Tree s destDir);
  let '(files, err) := Walk collect tree destDir [] in
  match err with
  | Some err =>
      Println ["An error occurred while determining build files"; WalkErr_Error err];;
      os_Exit 1
  | None => mret tt
  end;;
  Println [setOutput files].

End Program.

(** ** A scripted machine

    The simplest instance of the interface: every operation answers from a
    fixed script and nothing ever changes.  It stands for a machine seen
    through test doubles of the external steps. *)

Module Scripted.

Record World := {
  cwd : string;
  stat : string -> option StatError;
  lookPath : string -> option string;
  run : Cmd -> ExecResult;
  lstat : string -> WalkNode
}.

#[global] Instance Scripted_OS : OS World := {|
  os_Getwd := cwd;
  os_Stat := stat;
  os_LookPath := lookPath;
  os_Run c w := (run w c, w);
  os_Tree := lstat
|}.

(** A subprocess that prints nothing and succeeds. *)
Definition ok : ExecResult := {| Stdout := ""; Stderr := ""; Err := None |}.

(** A subprocess that ends with status 1. *)
Definition failed : ExecResult :=
  {| Stdout := ""; Stderr := ""; Err := Some "exit status 1" |}.

(** Every tool succeeds, no README and no LICENSE, an empty destination
    directory. *)
Definition happy : World := {|
  cwd := "/github/workspace";
  stat := fun _ => Some ErrNotExist;
  lookPath := fun name => Some ("/usr/bin/" +:+ name);
  run := fun _ => ok;
  lstat := fun _ => NodeDir []
|}.

End Scripted.

(** ** What the words of the specification mean

    The specification speaks of a value "with surrounding whitespace
    trimmed"; [TrimSpace] is [strings.TrimSpace] on ASCII white space, and
    [spec_parseCompress] is the compress flag as the specification words it.
    The program itself uses neither. *)

Module Spec.

(** '\t', '\n', '\v', '\f', '\r', ' ' *)
Definition isSpace (c : ascii) : bool :=
  let n := nat_of_ascii c in
  (Nat.leb 9 n && Nat.leb n 13) || Nat.eqb n 32.

Fixpoint trimLeft (s : string) : string :=
  match s with
  | EmptyString => EmptyString
  | String c rest => if isSpace c then trimLeft rest else s
  end.

(** Drops the white space at the end: a byte is kept when it is no space
    or something is kept after it. *)
Fixpoint trimRight (s : string) : string :=
  match s with
  | EmptyString => EmptyString
  | String c rest =>
      match trimRight rest with
      | EmptyString => if isSpace c then EmptyString else String c EmptyString
      | rest' => String c rest'
      end
  end.

Definition TrimSpace (s : string) : string := trimRight (trimLeft s).

(** The sixteen spellings of "true". *)
Definition spelledTrue (v : string) : Prop :=
  exists c1 c2 c3 c4,
    v = String c1 (String c2 (String c3 (String c4 EmptyString)))
    /\ (c1 = "t" \/ c1 = "T")%char /\ (c2 = "r" \/ c2 = "R")%char
    /\ (c3 = "u" \/ c3 = "U")%char /\ (c4 = "e" \/ c4 = "E")%char.

(** "true iff the trimmed value, compared case-insensitively, equals
    true" *)
Definition spec_parseCompress (mapLower : string -> string) (value : string) : bool :=
  String.eqb (Strings.ToLower mapLower (TrimSpace value)) "true".

End Spec.

(** ** A simulated machine

    An instance of the interface with a file system that changes: a tree of
    named nodes, on which the external tools do what the specification's
    section on external interfaces says of them. *)

Module Sim.

#[warnings="-register-all"]
Inductive Node :=
| Regular
| Archive (members : list string)
| Directory (entries : list (string * Node)).

Record Machine := {
  cwd : string;          (* absolute *)
  root : Node            (* the node of "/" *)
}.

(** The names of an absolute, clean path. *)
Definition components (path : string) : list string :=
  filter (fun name => negb (String.eqb name "")) (Strings.Split path "/").

(** A path as seen from directory [base]. *)
Definition resolve (base path : string) : string :=
  match path with
  | String "/" _ => Filepath.Clean path
  | _ => Filepath.Join [base; path]
  end.

Fixpoint assoc (name : string) (entries : list (string * Node)) : option Node :=
  match entries with
  | [] => None
  | (k, n) :: rest => if String.eqb k name then Some n else assoc name rest
  end.

(** Entries are kept in byte order, as a directory read returns them
    sorted. *)
Fixpoint insertSorted (name : string) (n : Node) (entries : list (string * Node))
  : list (string * Node) :=
  match entries with
  | [] => [(name, n)]
  | (k, m) :: rest =>
      if String.eqb k name then (name, n) :: rest
      else if String.ltb name k then (name, n) :: (k, m) :: rest
      else (k, m) :: insertSorted name n rest
  end.

Fixpoint lookup (path : list string) (n : Node) : option Node :=
  match path with
  | [] => Some n
  | name :: rest =>
      match n with
      | Directory entries =>
          match assoc name entries with
          | Some child => lookup rest child
          | None => None
          end
      | _ => None
      end
  end.

(** Puts [new] at [path], making the directories on the way; fails when
    the way leads through a file. *)
Fixpoint put (path : list string) (new : Node) (n : Node) : option Node :=
  match path with
  | [] => Some new
  | name :: rest =>
      match n with
      | Directory entries =>
          match put rest new (default (Directory []) (assoc name entries)) with
          | Some child => Some (Directory (insertSorted name child entries))
          | None => None
          end
      | _ => None
      end
  end.

Fixpoint remove (path : list string) (n : Node) : Node :=
  match path, n with
  | [name], Directory entries =>
      Directory (filter (fun e => negb (String.eqb (fst e) name)) entries)
  | name :: rest, Directory entries =>
      Directory (map (fun e => if String.eqb (fst e) name
                               then (fst e, remove rest (snd e)) else e) entries)
  | _, _ => n
  end.

Definition isFile (n : option Node) : bool :=
  match n with
  | Some Regular | Some (Archive _) => true
  | _ => false
  end.

Fixpoint toWalk (n : Node) : WalkNode :=
  match n with
  | Regular | Archive _ => NodeFile
  | Directory entries =>
      NodeDir ((fix each (es : list (string * Node)) : list (string * WalkNode) :=
                  match es with
                  | [] => []
                  | (name, child) :: rest => (name, toWalk child) :: each rest
                  end) entries)
  end.

Definition at_ (m : Machine) (base path : string) : option Node :=
  lookup (components (resolve base path)) (root m).

Definition ok (out : string) : ExecResult :=
  {| Stdout := out; Stderr := ""; Err := None |}.

Definition fails (status : string) : ExecResult :=
  {| Stdout := ""; Stderr := ""; Err := Some ("exit status " +:+ status) |}.

Definition names (n : option Node) : list string :=
  match n with
  | Some (Directory entries) => map fst entries
  | _ => []
  end.

(** A command string that is one single-quoted word names a program; the
    shell finds no program of a name with spaces in it. *)
Definition quotedWord (script : string) : bool :=
  match script with
  | String "'" rest =>
      match rev (list_ascii_of_string rest) with
      | "'"%char :: body => negb (existsb (Ascii.eqb "'"%char) body)
      | _ => false
      end
  | _ => false
  end.

(** Modelled from the spec: the external collaborators (the compiler, [cp],
    [tar], [rm], [ls] and the shell) are no part of the repository; their
    contracts are those of the specification.  The compile step produces a
    single file at its output path (making the directories on the way); the
    archive step produces a single archive of the named files of its working
    directory; copy, remove and list do what their names say; the shell
    fails with status 127 on a command it does not find. *)
Definition exec (c : Cmd) (m : Machine) : ExecResult * Machine :=
  let base := if String.eqb (Dir c) "" then cwd m else resolve (cwd m) (Dir c) in
  let write path node :=
    match put (components (resolve base path)) node (root m) with
    | Some root' => (ok "", {| cwd := cwd m; root := root' |})
    | None => (fails "1", m)
    end in
  match Name c, Args c with
  | "go", ["build"; "-buildmode"; "exe"; "-ldflags"; _; "-o"; output; _] =>
      write output Regular
  | "cp", [src; dest] =>
      match at_ m base src with
      | Some Regular =>
          if String.eqb (resolve base src) (resolve base dest) then (fails "1", m)
          else write dest Regular
      | Some (Archive members) =>
          if String.eqb (resolve base src) (resolve base dest) then (fails "1", m)
          else write dest (Archive members)
      | _ => (fails "1", m)
      end
  | "tar", "-cvzf" :: archive :: members =>
      if forallb (fun f => isFile (at_ m base f)) members
      then write archive (Archive members)
      else (fails "2", m)
  | "rm", "-f" :: files =>
      if existsb (fun f => match at_ m base f with
                           | Some (Directory _) => true
                           | _ => false
                           end) files
      then (fails "1", m)
      else (ok "",
            {| cwd := cwd m;
               root := fold_left (fun r f => remove (components (resolve base f)) r)
                         files (root m) |})
  | "ls", ["-alh"; dir] =>
      match at_ m base dir with
      | Some n => (ok (Strings.Join (names (Some n)) Strings.nl), m)
      | None => (fails "2", m)
      end
  | "/bin/sh", ["-c"; script] =>
      if quotedWord script then (fails "127", m) else (ok "", m)
  | _, _ => (fails "127", m)
  end.

#[global] Instance Sim_OS : OS Machine := {|
  os_Getwd := cwd;
  os_Stat m path :=
    match at_ m (cwd m) path with
    | Some _ => None
    | None => Some ErrNotExist
    end;
  os_LookPath m name := Some ("/usr/bin/" +:+ name);
  os_Run := exec;
  os_Tree m path :=
    match at_ m (cwd m) path with
    | Some n => toWalk n
    | None => NodeLstatErr "no such file or directory"
    end
|}.

(** The names in a directory of the machine. *)
Definition listing (m : Machine) (dir : string) : list string :=
  names (at_ m (cwd m) dir).

End Sim.

(** ** Scenarios

    Concrete environments and machines on which the program is run below. *)

Module Scenario.

(** The inputs of the action: destination "dist" in the workspace
    "/github/workspace", no package name, no linker flags. *)
Definition inputsFor (baseName platforms compress : string) : list (string * string) :=
  [("INPUT_PLATFORMS", platforms); ("INPUT_NAME", baseName); ("INPUT_DEST", "dist");
   ("INPUT_COMPRESS", compress); ("GITHUB_WORKSPACE", "/github/workspace")].

(** The same with the base name "app". *)
Definition inputs (platforms compress : string) : list (string * string) :=
  inputsFor "app" platforms compress.

(** No Unicode lower-casing is needed for ASCII inputs. *)
Definition noUnicode (s : string) : string := s.

Definition linux_amd64 : gmap string string :=
  <["arch" := "amd64"]> {["kernel" := "linux"]}.

(** Every tool succeeds except the shell. *)
Definition shellFails : Scripted.World := {|
  Scripted.cwd := "/github/workspace";
  Scripted.stat := fun _ => Some ErrNotExist;
  Scripted.lookPath := fun name => Some ("/usr/bin/" +:+ name);
  Scripted.run := fun c =>
    if String.eqb (Name c) "/bin/sh" then Scripted.failed else Scripted.ok;
  Scripted.lstat := fun _ => NodeDir []
|}.

(** Every existence check fails with "permission denied"; every tool
    succeeds. *)
Definition statDenied : Scripted.World := {|
  Scripted.cwd := "/github/workspace";
  Scripted.stat := fun _ => Some (ErrOther "permission denied");
  Scripted.lookPath := fun name => Some ("/usr/bin/" +:+ name);
  Scripted.run := fun _ => Scripted.ok;
  Scripted.lstat := fun _ => NodeDir []
|}.

(** Every tool succeeds; the destination directory holds a binary, a
    directory that cannot be read and a name whose [Lstat] fails. *)
Definition walkErrors : Scripted.World := {|
  Scripted.cwd := "/github/workspace";
  Scripted.stat := fun _ => Some ErrNotExist;
  Scripted.lookPath := fun name => Some ("/usr/bin/" +:+ name);
  Scripted.run := fun _ => Scripted.ok;
  Scripted.lstat := fun _ =>
    NodeDir [("app-linux-amd64", NodeFile);
             ("cache", NodeDirErr "open dist/cache: permission denied");
             ("lost", NodeLstatErr "lstat dist/lost: no such file or directory")]
|}.

(** A checkout with a source file and a README, no destination directory
    yet; the process runs in the workspace. *)
Definition checkout : Sim.Machine := {|
  Sim.cwd := "/github/workspace";
  Sim.root :=
    Sim.Directory
      [("github",
        Sim.Directory
          [("workspace",
            Sim.Directory [("README.md", Sim.Regular); ("main.go", Sim.Regular)])])]
|}.

End Scenario.

(** A name of a directory entry: no separator, and too long to be "." or
    "..". *)
Definition plainName (n : string) : Prop :=
  Strings.Count n "/" = 0 /\ 3 <= String.length n.

(** The last line a run printed. *)
Fixpoint lastPrinted (t : list Event) : option string :=
  match t with
  | [] => None
  | EvPrint text :: t' =>
      match lastPrinted t' with
      | Some later => Some later
      | None => Some text
      end
  | _ :: t' => lastPrinted t'
  end.

(** C1 as the specification has it: the run is rejected before any build
    attempt, it does not end well and has started no subprocess. *)
Definition rejectedBeforeBuild {S : Type} (run : Res unit * S * list Event) : Prop :=
  outcome run <> Ret tt /\ commands (events run) = [].

(** C3 as the specification has it: the run ends in a fatal exit. *)
Definition fatal {S A : Type} (run : Res A * S * list Event) : Prop :=
  exists code, outcome run = Exit code /\ code <> 0%Z.

(** The paths of a tree in the order of a walk: the root, then, for each
    entry of a directory in turn, the paths of the entry under the root
    joined with its name. *)
Fixpoint treePaths (root : string) (tree : WalkNode) : list string :=
  root ::
  match tree with
  | NodeDir entries =>
      (fix each (es : list (string * WalkNode)) : list string :=
         match es with
         | [] => []
         | (name, child) :: rest =>
             treePaths (Filepath.Join [root; name]) child ++ each rest
         end) entries
  | _ => []
  end.

(** A scripted machine on which the tool of one name fails and every other
    tool succeeds; README.md and LICENSE are there. *)
Definition toolFails (tool : string) : Scripted.World := {|
  Scripted.cwd := "/github/workspace";
  Scripted.stat := fun _ => None;
  Scripted.lookPath := fun name => Some ("/usr/bin/" +:+ name);
  Scripted.run := fun c =>
    if String.eqb (Name c) tool then Scripted.failed else Scripted.ok;
  Scripted.lstat := fun _ => NodeDir []
|}.

(** A name of a directory entry: not empty, without separator, and neither
    "." nor "..". *)
Definition entryName (n : string) : Prop :=
  Strings.Count n "/" = 0 /\ n <> "" /\ n <> "." /\ n <> "..".


(** * Properties *)

(** ** Strings and paths *)

Example Clean_examples :
  map Filepath.Clean
    ["a/c"; "a//c"; "a/c/."; "a/c/b/.."; "/../a/c"; "/../a/b/../././/c"; "";
     "/"; "../a"; "a/../.."; "./a/"; "..."; "abc/def/../../.."; "/abc/def/../.."]
  = ["a/c"; "a/c"; "a/c"; "a/c"; "/a/c"; "/a/c"; ".";
     "/"; "../a"; ".."; "a"; "..."; ".."; "/"].
Proof. vm_compute. reflexivity. Qed.

Example Join_examples :
  map Filepath.Join
    [["a"; "b"]; [""; "b"]; ["/ws"; ""]; [""; ""]; ["/github/workspace"; "dist"];
     ["a/"; "/b"]; ["/ws/dist"; "app.exe"]]
  = ["a/b"; "b"; "/ws"; ""; "/github/workspace/dist"; "a/b"; "/ws/dist/app.exe"].
Proof. vm_compute. reflexivity. Qed.

Example Split_examples :
  map (fun s => Strings.Split s "/") ["linux/amd64"; "linux"; ""; "a/b/c"; "/x"]
  = [["linux"; "amd64"]; ["linux"]; [""]; ["a"; "b"; "c"]; [""; "x"]].
Proof. reflexivity. Qed.

Lemma append_empty_r (s : string) : s +:+ "" = s.
Proof.
  induction s as [|c s IH]; [reflexivity|].
  change (String c (s +:+ "") = String c s). congruence.
Qed.

Lemma append_assoc (a b c : string) : (a +:+ b) +:+ c = a +:+ b +:+ c.
Proof.
  induction a as [|x a IH]; [reflexivity|].
  change (String x ((a +:+ b) +:+ c) = String x (a +:+ b +:+ c)). congruence.
Qed.

Lemma Split_length (s : string) (sep : ascii) :
  length (Strings.Split s sep) = Datatypes.S (Strings.Count s sep).
Proof.
  induction s as [|c s IH]; simpl; [reflexivity|].
  destruct (Ascii.eqb c sep); simpl.
  - now rewrite IH.
  - destruct (Strings.Split s sep); simpl in *; [discriminate|assumption].
Qed.

Lemma Count_ReplaceAll_empty (s : string) (old sep : ascii) :
  old <> sep ->
  Strings.Count (Strings.ReplaceAll s old "") sep = Strings.Count s sep.
Proof.
  intros Hne. induction s as [|c s IH]; simpl; [reflexivity|].
  destruct (Ascii.eqb c old) eqn:Hc; simpl.
  - apply Ascii.eqb_eq in Hc. subst c.
    destruct (Ascii.eqb old sep) eqn:Hs; [apply Ascii.eqb_eq in Hs; contradiction|].
    exact IH.
  - now rewrite IH.
Qed.

Lemma lowerByte_inv (c : ascii) :
  (Strings.lowerByte c = "t"%char -> c = "t"%char \/ c = "T"%char)
  /\ (Strings.lowerByte c = "r"%char -> c = "r"%char \/ c = "R"%char)
  /\ (Strings.lowerByte c = "u"%char -> c = "u"%char \/ c = "U"%char)
  /\ (Strings.lowerByte c = "e"%char -> c = "e"%char \/ c = "E"%char).
Proof.
  destruct c as [[] [] [] [] [] [] [] []]; vm_compute;
    repeat split; intros Heq; solve [discriminate Heq | auto].
Qed.

Lemma lowerASCII_true (v : string) :
  Strings.lowerASCII v = "true" <-> Spec.spelledTrue v.
Proof.
  split.
  - destruct v as [|c1 [|c2 [|c3 [|c4 [|c5 v]]]]]; simpl; try discriminate.
    intros Heq. injection Heq as H1 H2 H3 H4.
    exists c1, c2, c3, c4. split; [reflexivity|].
    repeat split.
    + now apply (lowerByte_inv c1).
    + now apply (lowerByte_inv c2).
    + now apply (lowerByte_inv c3).
    + now apply (lowerByte_inv c4).
  - intros (c1 & c2 & c3 & c4 & -> & [-> | ->] & [-> | ->] & [-> | ->] & [-> | ->]);
      reflexivity.
Qed.

Lemma spelledTrue_isASCII (v : string) : Spec.spelledTrue v -> Strings.isASCII v = true.
Proof.
  intros (c1 & c2 & c3 & c4 & -> & [-> | ->] & [-> | ->] & [-> | ->] & [-> | ->]);
    reflexivity.
Qed.

(** ** Running the program by hand *)

Lemma execs_app (t1 t2 : list Event) : execs (t1 ++ t2) = execs t1 ++ execs t2.
Proof.
  induction t1 as [|[c r|path r|text] t1 IH]; simpl; [reflexivity| |assumption..].
  now rewrite IH.
Qed.

Lemma commands_app (t1 t2 : list Event) :
  commands (t1 ++ t2) = commands t1 ++ commands t2.
Proof. unfold commands. now rewrite execs_app, map_app. Qed.

Ltac unfold_monad :=
  unfold mbind, M_bind, mret, M_ret, Cmd_String, Run, Stat, gets, Println, Printf,
    os_Exit, panic in *.

(** Every way to cut a concrete list as [pre ++ x :: post]. *)
Ltac split_trace Hsplit pre :=
  match type of Hsplit with
  | [] = _ => destruct pre; discriminate Hsplit
  | _ :: _ = _ =>
      destruct pre as [|? pre]; cbn [app] in Hsplit;
      [ injection Hsplit as <- <- <-
      | injection Hsplit as <- Hsplit; split_trace Hsplit pre ]
  end.

(** ** The final walk *)

(** Induction over a tree and the entries of its directories. *)
Lemma WalkNode_entries_ind (P : WalkNode -> Prop) :
  (forall e, P (NodeLstatErr e)) ->
  P NodeFile ->
  (forall e, P (NodeDirErr e)) ->
  (forall entries, Forall (fun entry => P (snd entry)) entries -> P (NodeDir entries)) ->
  forall n, P n.
Proof.
  intros Herr Hfile Hdirerr Hdir.
  fix IH 1. intros [e| |e|entries].
  - apply Herr.
  - apply Hfile.
  - apply Hdirerr.
  - apply Hdir. induction entries as [|[name child] entries IHentries].
    + constructor.
    + constructor; [apply IH | exact IHentries].
Qed.

(** With a callback that returns nil whatever it is given, the descent
    returns nil. *)
Lemma walk_never_fails {A : Type} (fn : WalkFunc (A := A)) :
  (forall path info err acc, snd (fn path info err acc) = None) ->
  forall tree path acc, snd (walk fn path tree acc) = None.
Proof.
  intros Hnil tree. induction tree as [e| |e|entries IH] using WalkNode_entries_ind;
    intros path acc; cbn [walk]; try apply Hnil.
  pose proof (Hnil path (Some {| IsDir := true |}) None acc) as Hfirst.
  destruct (fn path (Some {| IsDir := true |}) None acc) as [acc1 err1].
  simpl in Hfirst. subst err1.
  revert acc1. induction IH as [|[name child] entries Hchild _ IHloop]; intros acc1.
  - reflexivity.
  - simpl in Hchild.
    destruct child as [e| |e|sub].
    + pose proof (Hnil (Filepath.Join [path; name]) None (Some (OtherErr e)) acc1) as Hc.
      destruct (fn _ None _ acc1) as [acc' err]. simpl in Hc. subst err. apply IHloop.
    + pose proof (Hchild (Filepath.Join [path; name]) acc1) as Hc.
      destruct (walk fn _ NodeFile acc1) as [acc' err]. simpl in Hc. subst err.
      apply IHloop.
    + pose proof (Hchild (Filepath.Join [path; name]) acc1) as Hc.
      destruct (walk fn _ (NodeDirErr e) acc1) as [acc' err]. simpl in Hc. subst err.
      apply IHloop.
    + pose proof (Hchild (Filepath.Join [path; name]) acc1) as Hc.
      destruct (walk fn _ (NodeDir sub) acc1) as [acc' err]. simpl in Hc. subst err.
      apply IHloop.
Qed.

(** The walk of [main] never returns an error, whatever it meets: the
    branch of [main] that exits on an error of the walk cannot be taken. *)
Lemma Walk_collect_never_fails (tree : WalkNode) (root : string) (files : list string) :
  snd (Walk collect tree root files) = None.
Proof.
  unfold Walk.
  assert (Hw : snd (match tree with
                    | NodeLstatErr e => collect root None (Some (OtherErr e)) files
                    | _ => walk collect root tree files
                    end) = None).
  { destruct tree; try apply walk_never_fails; reflexivity. }
  destruct (match tree with NodeLstatErr e => _ | _ => _ end) as [acc' err].
  simpl in Hw. subst err. reflexivity.
Qed.

Section Properties.

Context {S : Type} `{OS S}.
Variable environ : list (string * string).
Variable mapLower : string -> string.

Lemma bind_Exit {A B : Type} (m : M S A) (k : A -> M S B) (s : S) (code : Z) :
  outcome (m s) = Exit code -> outcome ((m ≫= k) s) = Exit code.
Proof.
  unfold mbind, M_bind, outcome. destruct (m s) as [[[a | c | e] s1] t1]; simpl;
    try discriminate. intros Heq. injection Heq as ->. reflexivity.
Qed.

Lemma lookup_kernel (kernel arch : string) :
  default "" ((<["arch" := arch]> {["kernel" := kernel]} : gmap string string) !! "kernel")
  = kernel.
Proof. rewrite lookup_insert_ne by discriminate. now rewrite lookup_singleton_eq. Qed.

Lemma lookup_arch (kernel arch : string) :
  default "" ((<["arch" := arch]> {["kernel" := kernel]} : gmap string string) !! "arch")
  = arch.
Proof. now rewrite lookup_insert_eq. Qed.

Lemma events_bind {A B : Type} (m : M S A) (k : A -> M S B) (s : S) :
  events ((m ≫= k) s) =
    events (m s) ++ match outcome (m s) with
                    | Ret a => events (k a (final (m s)))
                    | _ => []
                    end.
Proof.
  unfold mbind, M_bind, events, outcome, final.
  destruct (m s) as [[[a | code | e] s1] t1]; simpl.
  - destruct (k a s1) as [[r s2] t2]. reflexivity.
  - now rewrite app_nil_r.
  - now rewrite app_nil_r.
Qed.

(** The answer of [fileExists] in a state. *)
Lemma fileExists_run (path : string) (s : S) :
  fileExists path s =
    (Ret (statAnswer (os_Stat s (Filepath.Join [os_Getwd s; path]))), s,
     [EvStat (Filepath.Join [os_Getwd s; path])
        (os_Stat s (Filepath.Join [os_Getwd s; path]))]).
Proof.
  unfold fileExists, statAnswer. unfold_monad.
  destruct (os_Stat s _); reflexivity.
Qed.

Lemma build_first_command (packageName destDir : string)
  (platform : gmap string string) (ldflags : string) (compress : bool) (s : S) :
  hd_error (commands (events (build environ packageName destDir platform ldflags compress s)))
  = Some (buildCmd environ packageName destDir
            (default "" (platform !! "kernel")) (default "" (platform !! "arch"))
            ldflags compress).
Proof.
  unfold build.
  do 3 (rewrite events_bind; unfold Cmd_String, gets, Println, Run;
        cbn [events outcome final fst snd app]).
  destruct (os_Run _ s) as [r s1]. reflexivity.
Qed.

Lemma bind_first_command {A B : Type} (m : M S A) (k : A -> M S B) (s : S) (c : Cmd) :
  hd_error (commands (events (m s))) = Some c ->
  hd_error (commands (events ((m ≫= k) s))) = Some c.
Proof.
  rewrite events_bind, commands_app.
  destruct (commands (events (m s))); [discriminate|]. intros Heq. exact Heq.
Qed.

Lemma forPlatforms_step (packageName destDir ldflags : string) (compress : bool)
  (platform : string) (rest : list string) (kernel arch : string) (others : list string)
  (s : S) :
  platformSpec platform = kernel :: arch :: others ->
  forPlatforms environ packageName destDir (platform :: rest) ldflags compress s
  = (build environ packageName destDir
       (<["arch" := arch]> {["kernel" := kernel]}) ldflags compress
     ≫= fun _ => forPlatforms environ packageName destDir rest ldflags compress) s.
Proof.
  intros Hspec. cbn [forPlatforms]. unfold platformMap. rewrite Hspec.
  unfold index. cbn [nth_error].
  unfold mbind, M_bind, mret, M_ret.
  destruct (build _ _ _ _ _ _ s) as [[[[]|code|e] s1] t1]; try reflexivity.
  destruct (forPlatforms _ _ _ _ _ _ s1) as [[r2 s2] t2]; reflexivity.
Qed.

Lemma build_plain_run (packageName destDir : string)
  (platform : gmap string string) (ldflags : string) (s : S) :
  let c := buildCmd environ packageName destDir
             (default "" (platform !! "kernel")) (default "" (platform !! "arch"))
             ldflags false in
  exists text1 text2,
    build environ packageName destDir platform ldflags false s =
      (match Err (fst (os_Run c s)) with None => Ret tt | Some _ => Exit 1%Z end,
       snd (os_Run c s),
       [EvPrint text1; EvExec c (fst (os_Run c s)); EvPrint text2]).
Proof.
  intros c. unfold build. fold c. unfold_monad.
  destruct (os_Run c s) as [r s1]. cbn [fst snd].
  destruct (Err r); do 2 eexists; reflexivity.
Qed.

(** *** Stepping through a computation

    The rules consume the head of a computation and leave its continuation
    folded; [wp_step] applies the rule that fits. *)

Lemma wp_assoc {A B C : Type} (m : M S A) (f : A -> M S B) (k : B -> M S C) (s : S) Q :
  wp (m ≫= fun a => f a ≫= k) s Q -> wp ((m ≫= f) ≫= k) s Q.
Proof.
  unfold wp, mbind, M_bind.
  destruct (m s) as [[[a | code | e] s1] t1]; try (intros HQ; exact HQ).
  destruct (f a s1) as [[[b | code | e] s2] t2]; try (intros HQ; exact HQ).
  destruct (k b s2) as [[r s3] t3]. now rewrite app_assoc.
Qed.

Lemma wp_ret_bind {A B : Type} (a : A) (k : A -> M S B) (s : S) Q :
  wp (k a) s Q -> wp (mret a ≫= k) s Q.
Proof.
  unfold wp, mbind, M_bind, mret, M_ret.
  destruct (k a s) as [[r s'] t]. intros HQ; exact HQ.
Qed.

Lemma wp_gets_bind {A B : Type} (f : S -> A) (k : A -> M S B) (s : S) Q :
  wp (k (f s)) s Q -> wp (gets f ≫= k) s Q.
Proof.
  unfold wp, mbind, M_bind, gets.
  destruct (k (f s) s) as [[r s'] t]. intros HQ; exact HQ.
Qed.

Lemma wp_Exit_bind {A B : Type} (code : Z) (k : A -> M S B) (s : S) Q :
  Q (Exit code, s, []) -> wp (os_Exit code ≫= k) s Q.
Proof. intros HQ; exact HQ. Qed.

Lemma wp_Printf_bind {B : Type} (text : string) (k : unit -> M S B) (s : S) Q :
  wp (k tt) s (fun run => Q (prepend [EvPrint text] run)) ->
  wp (Printf text ≫= k) s Q.
Proof.
  unfold wp, mbind, M_bind, Printf, prepend, outcome, final, events.
  destruct (k tt s) as [[r s'] t]. intros HQ; exact HQ.
Qed.

Lemma wp_Println_bind {B : Type} (operands : list string) (k : unit -> M S B) (s : S) Q :
  wp (k tt) s
     (fun run => Q (prepend [EvPrint (Strings.Join operands " " +:+ Strings.nl)] run)) ->
  wp (Println operands ≫= k) s Q.
Proof. apply (wp_Printf_bind (Strings.Join operands " " +:+ Strings.nl)). Qed.

Lemma wp_Run_bind {B : Type} (c : Cmd) (k : ExecResult -> M S B) (s : S) Q :
  (forall r s1, os_Run c s = (r, s1) ->
                wp (k r) s1 (fun run => Q (prepend [EvExec c r] run))) ->
  wp (Run c ≫= k) s Q.
Proof.
  unfold wp, mbind, M_bind, Run, prepend, outcome, final, events.
  intros HQ. destruct (os_Run c s) as [r s1]. specialize (HQ r s1 eq_refl).
  destruct (k r s1) as [[r' s'] t]. exact HQ.
Qed.

Lemma wp_fileExists_bind {B : Type} (path : string) (k : bool -> M S B) (s : S) Q :
  wp (k (statAnswer (os_Stat s (Filepath.Join [os_Getwd s; path])))) s
     (fun run => Q (prepend [EvStat (Filepath.Join [os_Getwd s; path])
                               (os_Stat s (Filepath.Join [os_Getwd s; path]))] run)) ->
  wp (fileExists path ≫= k) s Q.
Proof.
  unfold wp, mbind at 1. unfold M_bind at 1. rewrite fileExists_run.
  unfold prepend, outcome, final, events.
  destruct (k _ s) as [[r' s'] t]. intros HQ; exact HQ.
Qed.

Lemma wp_last {A : Type} (m : M S A) (s : S) Q :
  wp (m ≫= mret) s Q -> wp m s Q.
Proof.
  unfold wp, mbind, M_bind, mret, M_ret.
  destruct (m s) as [[[a | code | e] s1] t1]; try (intros HQ; exact HQ).
  now rewrite app_nil_r.
Qed.

Lemma wp_done {A : Type} (a : A) (s : S) Q :
  Q (Ret a, s, []) -> wp (mret (M := M S) a) s Q.
Proof. intros HQ; exact HQ. Qed.

Ltac wp_step :=
  lazymatch goal with
  | |- wp ((_ ≫= _) ≫= _) _ _ => apply wp_assoc
  | |- wp (mret _ ≫= _) _ _ => apply wp_ret_bind
  | |- wp (gets _ ≫= _) _ _ => apply wp_gets_bind
  | |- wp (Cmd_String _ ≫= _) _ _ => unfold Cmd_String at 1; apply wp_gets_bind
  | |- wp (os_Exit _ ≫= _) _ _ => apply wp_Exit_bind
  | |- wp (Printf _ ≫= _) _ _ => apply wp_Printf_bind
  | |- wp (Println _ ≫= _) _ _ => apply wp_Println_bind
  | |- wp (Run _ ≫= _) _ _ =>
      let r := fresh "r" in let s := fresh "s" in
      apply wp_Run_bind; intros r s _
  | |- wp (fileExists _ ≫= _) _ _ => apply wp_fileExists_bind
  | |- wp (copyFile _ _ ≫= _) _ _ => unfold copyFile at 1
  | |- wp (match Err ?r with _ => _ end ≫= _) _ _ => destruct (Err r) eqn:?
  | |- wp ((if ?b then _ else _) ≫= _) _ _ => destruct b eqn:?
  | |- wp (if ?b then _ else _) _ _ => destruct b eqn:?
  | |- wp (mret _) _ _ => apply wp_done
  | |- wp (_ ≫= _) _ _ => fail
  | |- wp _ _ _ => apply wp_last
  end; cbv beta.

(** Steps up to the next subprocess. *)
Ltac wp_upto_Run :=
  repeat lazymatch goal with
         | |- wp (Run _ ≫= _) _ _ => fail
         | |- _ => wp_step
         end.

(** The leaves of a run of [build]: the events are a concrete list. *)
Ltac wp_leaves := cbv [prepend outcome final events fst snd app].

(** C7: the binary file name is {baseName}-{kernel}-{arch} without
    packaging and {baseName} with packaging, followed by ".exe" exactly
    when the kernel is "windows"; the compile step of [build] writes to
    that name inside the destination directory. *)
Theorem buildFileName_spec (packageName destDir ldflags : string)
  (baseName kernel arch : string) (compress : bool) :
  buildFileName baseName kernel arch compress =
    (if compress then baseName else baseName +:+ "-" +:+ kernel +:+ "-" +:+ arch)
    +:+ (if decide (kernel = "windows") then ".exe" else "")
  /\ nth_error (Args (buildCmd environ packageName destDir kernel arch ldflags compress)) 5
     = Some "-o"
  /\ nth_error (Args (buildCmd environ packageName destDir kernel arch ldflags compress)) 6
     = Some (Filepath.Join
               [destDirPath environ destDir;
                buildFileName (Getenv environ "INPUT_NAME") kernel arch compress]).
Proof.
  split; [|split; reflexivity].
  unfold buildFileName.
  destruct (decide (kernel = "windows")) as [-> | Hne].
  - reflexivity.
  - destruct (String.eqb kernel "windows") eqn:Heq.
    + apply String.eqb_eq in Heq. contradiction.
    + now rewrite append_empty_r.
Qed.

(** C9: the first command of [build] is the compile step: `go build` with
    the output path inside the destination directory, the linker flags,
    the package path ("." without a package name, "./" and the name
    otherwise), and the environment of the process extended by GOOS and
    GOARCH of the target. *)
Theorem compile_step_invocation (packageName destDir : string)
  (platform : gmap string string) (ldflags : string) (compress : bool) (s : S) :
  let kernel := default "" (platform !! "kernel") in
  let arch := default "" (platform !! "arch") in
  let c := buildCmd environ packageName destDir kernel arch ldflags compress in
  hd_error (commands (events (build environ packageName destDir platform ldflags compress s)))
    = Some c
  /\ Name c = "go"
  /\ Args c =
       ["build"; "-buildmode"; "exe"; "-ldflags"; ldflags; "-o";
        Filepath.Join
          [Filepath.Join [Getenv environ "GITHUB_WORKSPACE"; destDir];
           buildFileName (Getenv environ "INPUT_NAME") kernel arch compress];
        if decide (packageName = "") then "." else "./" +:+ packageName]
  /\ Env c = Some (Environ environ ++ ["GOOS=" +:+ kernel; "GOARCH=" +:+ arch])
  /\ Dir c = "".
Proof.
  intros kernel arch c. split; [|split; [|split; [|split]]]; try reflexivity.
  - apply build_first_command.
  - unfold c, buildCmd, packagePath, destDirPath. simpl. repeat f_equal.
    destruct (decide (packageName = "")) as [-> | Hne]; [reflexivity|].
    destruct (String.eqb packageName "") eqn:Heq; [|reflexivity].
    apply String.eqb_eq in Heq. contradiction.
Qed.

(** C10: with compress = false, [build] runs the compile step and
    nothing else: no existence check, no copy, no archive, no cleanup; it
    ends well exactly when the compile step does, and leaves the machine as
    the compile step left it. *)
Theorem build_without_compress (packageName destDir : string)
  (platform : gmap string string) (ldflags : string) (s : S) :
  let c := buildCmd environ packageName destDir
             (default "" (platform !! "kernel")) (default "" (platform !! "arch"))
             ldflags false in
  let run := build environ packageName destDir platform ldflags false s in
  commands (events run) = [c]
  /\ stats (events run) = []
  /\ final run = snd (os_Run c s)
  /\ outcome run = match Err (fst (os_Run c s)) with
                   | None => Ret tt
                   | Some _ => Exit 1%Z
                   end.
Proof.
  intros c run. subst run. unfold build. fold c. unfold_monad.
  destruct (os_Run c s) as [r s1]. cbn [fst snd].
  destruct (Err r); repeat split; reflexivity.
Qed.

(** C3 (as the code has it): [fileExists] never ends the program and
    changes nothing; it answers false exactly when [os.Stat] reports that
    the file does not exist, and true otherwise, also when [os.Stat] fails
    for another reason.  So when the check of README.md fails for another
    reason after a good compile step, [build] goes on to copy the file. *)
Theorem fileExists_spec (packageName destDir : string) (platform : gmap string string)
  (ldflags : string) (path : string) (s : S) :
  (let absPath := Filepath.Join [os_Getwd s; path] in
   fileExists path s =
     (Ret match os_Stat s absPath with
          | Some ErrNotExist => false
          | Some (ErrOther _) => true
          | None => true
          end, s, [EvStat absPath (os_Stat s absPath)]))
  /\ (forall r1 s1 msg,
        os_Run (buildCmd environ packageName destDir
                  (default "" (platform !! "kernel")) (default "" (platform !! "arch"))
                  ldflags true) s = (r1, s1) ->
        Err r1 = None ->
        os_Stat s1 (Filepath.Join [os_Getwd s1; "README.md"]) = Some (ErrOther msg) ->
        nth_error (commands (events (build environ packageName destDir platform ldflags
                                       true s))) 1
        = Some (Command "cp" ["README.md";
                              Filepath.Join [destDirPath environ destDir; "README.md"]])).
Proof.
  split.
  - rewrite fileExists_run. cbn zeta. destruct (os_Stat s _) as [[|msg]|]; reflexivity.
  - intros r1 s1 msg Hrun1 Herr1 Hstat.
    change (wp (build environ packageName destDir platform ldflags true) s
              (fun run =>
                 nth_error (commands (events run)) 1
                 = Some (Command "cp" ["README.md";
                                       Filepath.Join [destDirPath environ destDir;
                                                      "README.md"]]))).
    unfold build. cbv zeta. wp_upto_Run.
    apply wp_Run_bind. intros r s1' Heq. rewrite Hrun1 in Heq. injection Heq as <- <-.
    cbv beta. rewrite Herr1. do 2 wp_step.
    rewrite Hstat. cbn [statAnswer IsNotExist negb]. wp_upto_Run.
    apply wp_Run_bind. intros r2 s2 _.
    unfold wp. cbv [prepend events snd app]. reflexivity.
Qed.

(** C4 (as the code has it): the compress flag is true exactly for the
    values that are "true" up to the case of their letters, with no
    trimming: the sixteen ASCII spellings, or a value with non-ASCII bytes
    that the Unicode lower-casing maps to "true". *)
Theorem parseCompress_spec (value : string) :
  parseCompress mapLower value = true <->
    Spec.spelledTrue value
    \/ (Strings.isASCII value = false /\ mapLower value = "true").
Proof.
  unfold parseCompress, Strings.ToLower. rewrite String.eqb_eq.
  destruct (Strings.isASCII value) eqn:Hascii.
  - rewrite lowerASCII_true. split; [auto|].
    intros [Hsp | [Hf _]]; [assumption | discriminate].
  - split; [auto|].
    intros [Hsp | [_ Hm]]; [|assumption].
    apply spelledTrue_isASCII in Hsp. congruence.
Qed.

(** C2: in a run of [build] with packaging, a cleanup step that succeeds
    is followed by exactly one more step, the shell with the command
    string 'pwd && ls -la' (the quotes are part of the string), run in the
    destination directory; when that step fails, [build] ends with
    [os.Exit(1)], and so does whatever program continues after [build]. *)
Theorem diagnostic_step_after_cleanup (packageName destDir : string)
  (platform : gmap string string) (ldflags : string) (s : S)
  (pre post : list (Cmd * ExecResult)) (c : Cmd) (r : ExecResult) :
  let run := build environ packageName destDir platform ldflags true s in
  execs (events run) = pre ++ (c, r) :: post ->
  Name c = "rm" ->
  Err r = None ->
  exists r',
    post = [(md5Cmd environ destDir, r')]
    /\ Name (md5Cmd environ destDir) = "/bin/sh"
    /\ Args (md5Cmd environ destDir) = ["-c"; "'pwd && ls -la'"]
    /\ Dir (md5Cmd environ destDir) = destDirPath environ destDir
    /\ (Err r' <> None ->
        outcome run = Exit 1%Z
        /\ forall (B : Type) (k : unit -> M S B),
             outcome ((build environ packageName destDir platform ldflags true ≫= k) s)
             = Exit 1%Z).
Proof.
  intros run Hsplit Hname Herr.
  assert (Hcore : exists r', post = [(md5Cmd environ destDir, r')]
                             /\ (Err r' <> None -> outcome run = Exit 1%Z)).
  { revert pre c r post Hsplit Hname Herr. subst run.
    change (wp (build environ packageName destDir platform ldflags true) s
              (fun run => forall pre c r post,
                   execs (events run) = pre ++ (c, r) :: post ->
                   Name c = "rm" -> Err r = None ->
                   exists r', post = [(md5Cmd environ destDir, r')]
                              /\ (Err r' <> None -> outcome run = Exit 1%Z))).
    unfold build. cbv zeta. repeat wp_step. all: wp_leaves.
    all: intros pre c r' post Hsplit Hname Herr.
    all: cbn [execs app] in Hsplit; split_trace Hsplit pre; try discriminate Hname.
    all: try congruence.
    all: eexists; split; [reflexivity|].
    all: intros Hfail; solve [reflexivity | congruence]. }
  destruct Hcore as (r' & Hpost & Hexit).
  exists r'. repeat split; try assumption; try reflexivity.
  - now apply Hexit.
  - intros B k. apply bind_Exit. now apply Hexit.
Qed.

(** C8: in a run of [build] with packaging, the archive step is reached
    whenever the compile step and the copies succeed.  It is `tar -cvzf
    {baseName}-{kernel}-{arch}.tar.gz` followed by the inclusion list, run
    in the destination directory; the inclusion list is the binary, then
    README.md and LICENSE, each exactly when its existence check found it,
    which is exactly when it was copied into the destination directory
    before; every step before the archive step succeeded; and when the
    archive step succeeds, the next step is `rm -f` of the same inclusion
    list in the same directory. *)
Theorem archive_and_cleanup_steps (packageName destDir : string)
  (platform : gmap string string) (ldflags : string) (s : S) :
  let kernel := default "" (platform !! "kernel") in
  let arch := default "" (platform !! "arch") in
  let baseName := Getenv environ "INPUT_NAME" in
  let run := build environ packageName destDir platform ldflags true s in
  ((forall step, In step (execs (events run)) ->
                 Name (fst step) = "go" \/ Name (fst step) = "cp" ->
                 Err (snd step) = None) ->
   exists pre c r post, execs (events run) = pre ++ (c, r) :: post /\ Name c = "tar")
  /\ forall (pre post : list (Cmd * ExecResult)) (c : Cmd) (r : ExecResult),
      let staged (name : string) :=
        In (Command "cp" [name; Filepath.Join [destDirPath environ destDir; name]])
           (map fst pre) in
      execs (events run) = pre ++ (c, r) :: post ->
      Name c = "tar" ->
      exists (readme license : bool),
        let includeFiles :=
          [buildFileName baseName kernel arch true]
          ++ (if readme then ["README.md"] else [])
          ++ (if license then ["LICENSE"] else []) in
        (exists cwd1 st1 cwd2 st2,
            stats (events run) = [(Filepath.Join [cwd1; "README.md"], st1);
                                  (Filepath.Join [cwd2; "LICENSE"], st2)]
            /\ readme = statAnswer st1 /\ license = statAnswer st2)
        /\ (readme = true <-> staged "README.md")
        /\ (license = true <-> staged "LICENSE")
        /\ Args c =
             ["-cvzf"; baseName +:+ "-" +:+ kernel +:+ "-" +:+ arch +:+ ".tar.gz"]
             ++ includeFiles
        /\ Dir c = destDirPath environ destDir
        /\ Forall (fun step => Err (snd step) = None) pre
        /\ (Err r = None ->
            exists r' post',
              post = (cleanCmd environ destDir includeFiles, r') :: post'
              /\ Name (cleanCmd environ destDir includeFiles) = "rm"
              /\ Args (cleanCmd environ destDir includeFiles) = ["-f"] ++ includeFiles
              /\ Dir (cleanCmd environ destDir includeFiles) = destDirPath environ destDir).
Proof.
  intros kernel arch baseName run. subst run.
  match goal with
  | |- ?P1 /\ ?P2 =>
      let Q1 := eval pattern (build environ packageName destDir platform ldflags true s)
                in P1 in
      let Q2 := eval pattern (build environ packageName destDir platform ldflags true s)
                in P2 in
      lazymatch Q1 with
      | ?F1 _ =>
          lazymatch Q2 with
          | ?F2 _ =>
              change (wp (build environ packageName destDir platform ldflags true) s
                        (fun run => F1 run /\ F2 run))
          end
      end
  end.
  unfold build. cbv zeta. repeat wp_step. all: wp_leaves.
  all: split;
    [ intros Hgood; cbn [execs] in Hgood |
      intros pre post c r' Hsplit Hname;
      cbn [execs app] in Hsplit; split_trace Hsplit pre; try discriminate Hname ].
  (* the archive step is reached, or a step before it failed *)
  all: try (exfalso;
            match goal with
            | Hfail : Err ?e = Some _ |- _ =>
                lazymatch type of Hgood with
                | context [(?c, e)] =>
                    let Hnone := fresh in
                    assert (Hnone : Err e = None)
                      by (apply (Hgood (c, e));
                          [ simpl; solve [auto 10]
                          | first [left; reflexivity | right; reflexivity] ]);
                    congruence
                end
            end).
  all: try (first [ exists []; do 3 eexists; split; reflexivity
                  | eexists [_]; do 3 eexists; split; reflexivity
                  | eexists [_; _]; do 3 eexists; split; reflexivity
                  | eexists [_; _; _]; do 3 eexists; split; reflexivity ]).
  (* the shape of the archive step *)
  all: match goal with
       | |- context [cleanCmd _ _ [_; "README.md"; "LICENSE"]] => exists true, true
       | |- context [cleanCmd _ _ [_; "README.md"]] => exists true, false
       | |- context [cleanCmd _ _ [_; "LICENSE"]] => exists false, true
       | |- context [cleanCmd _ _ [_]] => exists false, false
       | |- context [Args (tarCmd _ _ _ [_; "README.md"; "LICENSE"])] => exists true, true
       | |- context [Args (tarCmd _ _ _ [_; "README.md"])] => exists true, false
       | |- context [Args (tarCmd _ _ _ [_; "LICENSE"])] => exists false, true
       | |- context [Args (tarCmd _ _ _ [_])] => exists false, false
       end.
  all: cbn zeta; repeat apply conj.
  all: try reflexivity.
  all: try (do 4 eexists; repeat apply conj; [reflexivity | congruence | congruence]).
  all: try (intros _; simpl; solve [auto]).
  all: try (intros _; reflexivity).
  all: try discriminate.
  all: try (simpl; intros Hin; exfalso;
            repeat (destruct Hin as [Hin | Hin]; try discriminate Hin);
            exact Hin).
  all: try (repeat constructor; assumption).
  all: intros Hok; solve [congruence | do 2 eexists; repeat split; reflexivity].
Qed.

(** C1 (as the code has it): a target string is never checked.  Without
    a separator the slice of its fields has length one and reading the
    second field panics, when the loop reaches that target: nothing is run
    for it or for the targets after it.  With one separator or more the
    first two fields become kernel and arch, further fields are ignored,
    and the build of the target starts. *)
Theorem target_fields_unchecked (packageName destDir ldflags : string)
  (compress : bool) (platform : string) (rest : list string) (s : S) :
  let run :=
    forPlatforms environ packageName destDir (platform :: rest) ldflags compress s in
  match Strings.Count platform "/" with
  | 0 => run = (Panic (IndexOutOfRange 1 1), s, [])
  | Datatypes.S _ =>
      exists kernel arch others,
        platformSpec platform = kernel :: arch :: others
        /\ run =
             (build environ packageName destDir
                (<["arch" := arch]> {["kernel" := kernel]}) ldflags compress
              ≫= fun _ => forPlatforms environ packageName destDir rest ldflags compress) s
        /\ hd_error (commands (events run))
           = Some (buildCmd environ packageName destDir kernel arch ldflags compress)
  end.
Proof.
  intros run. subst run.
  pose proof (Split_length (Strings.ReplaceAll platform " " "") "/") as Hlen.
  rewrite Count_ReplaceAll_empty in Hlen by discriminate.
  fold (platformSpec platform) in Hlen.
  destruct (Strings.Count platform "/") as [|n].
  - cbn [forPlatforms]. unfold platformMap.
    destruct (platformSpec platform) as [|kernel [|arch others]]; try discriminate Hlen.
    reflexivity.
  - destruct (platformSpec platform) as [|kernel [|arch others]] eqn:Hspec;
      try discriminate Hlen.
    exists kernel, arch, others. split; [reflexivity|].
    pose proof (forPlatforms_step packageName destDir ldflags compress platform rest
                  kernel arch others s Hspec) as Heq.
    split; [exact Heq|].
    rewrite Heq. apply bind_first_command.
    rewrite build_first_command, lookup_kernel, lookup_arch. reflexivity.
Qed.

(** The run of [main] on the two targets without packaging, when the three
    subprocesses succeed. *)
Lemma two_target_run (s s1 s2 s3 : S) (r1 r2 r3 : ExecResult) :
  let destDir := Strings.ReplaceAll (Getenv environ "INPUT_DEST") " " "" in
  let packageName := Strings.ReplaceAll (Getenv environ "INPUT_PACKAGE") " " "" in
  let ldflags := Getenv environ "INPUT_LDFLAGS" in
  let c1 := buildCmd environ packageName destDir "linux" "amd64" ldflags false in
  let c2 := buildCmd environ packageName destDir "windows" "arm64" ldflags false in
  let run := main environ mapLower s in
  Getenv environ "INPUT_PLATFORMS" = "linux/amd64,windows/arm64" ->
  parseCompress mapLower (Getenv environ "INPUT_COMPRESS") = false ->
  os_Run c1 s = (r1, s1) -> Err r1 = None ->
  os_Run c2 s1 = (r2, s2) -> Err r2 = None ->
  os_Run (Command "ls" ["-alh"; destDir]) s2 = (r3, s3) -> Err r3 = None ->
  outcome run = Ret tt
  /\ final run = s3
  /\ commands (events run) = [c1; c2; Command "ls" ["-alh"; destDir]]
  /\ lastPrinted (events run)
     = Some (setOutput (fst (Walk collect (os_Tree s3 destDir) destDir []))
             +:+ Strings.nl).
Proof.
  intros destDir packageName ldflags c1 c2 run Hplatforms Hcompress
    Hrun1 Herr1 Hrun2 Herr2 Hrun3 Herr3.
  assert (Hrun : run = main environ mapLower s) by reflexivity.
  clearbody run. unfold main in Hrun. rewrite Hplatforms, Hcompress in Hrun.
  fold destDir packageName ldflags in Hrun.
  change (Strings.Split "linux/amd64,windows/arm64" ",")
    with ["linux/amd64"; "windows/arm64"] in Hrun.
  unfold mbind at 1 in Hrun. unfold M_bind at 1 in Hrun.
  rewrite (forPlatforms_step _ _ _ _ _ _ "linux" "amd64" []) in Hrun by reflexivity.
  unfold mbind at 1 in Hrun. unfold M_bind at 1 in Hrun.
  destruct (build_plain_run packageName destDir
              (<["arch" := "amd64"]> {["kernel" := "linux"]}) ldflags s)
    as (t1 & t2 & Hb1).
  rewrite Hb1 in Hrun. clear Hb1.
  rewrite lookup_kernel, lookup_arch in Hrun. fold c1 in Hrun.
  rewrite Hrun1 in Hrun. cbn [fst snd] in Hrun. rewrite Herr1 in Hrun.
  rewrite (forPlatforms_step _ _ _ _ _ _ "windows" "arm64" []) in Hrun by reflexivity.
  unfold mbind at 1 in Hrun. unfold M_bind at 1 in Hrun.
  destruct (build_plain_run packageName destDir
              (<["arch" := "arm64"]> {["kernel" := "windows"]}) ldflags s1)
    as (t3 & t4 & Hb2).
  rewrite Hb2 in Hrun. clear Hb2.
  rewrite lookup_kernel, lookup_arch in Hrun. fold c2 in Hrun.
  rewrite Hrun2 in Hrun. cbn [fst snd] in Hrun. rewrite Herr2 in Hrun.
  cbn [forPlatforms] in Hrun. unfold_monad.
  rewrite Hrun3, Herr3 in Hrun.
  pose proof (Walk_collect_never_fails (os_Tree s3 destDir) destDir []) as Hnil.
  destruct (Walk collect (os_Tree s3 destDir) destDir []) as [files err].
  cbn [snd] in Hnil. subst err. subst run. repeat split.
Qed.
(** ** Failures inside [build] *)

Lemma stats_app (t1 t2 : list Event) : stats (t1 ++ t2) = stats t1 ++ stats t2.
Proof.
  induction t1 as [|[c r|path r|text] t1 IH]; simpl; [reflexivity|assumption| |assumption].
  now rewrite IH.
Qed.

Lemma lastPrinted_app (t1 t2 : list Event) :
  lastPrinted (t1 ++ t2) =
    match lastPrinted t2 with
    | Some text => Some text
    | None => lastPrinted t1
    end.
Proof.
  induction t1 as [|[c r|path r|text] t1 IH]; cbn [app lastPrinted].
  - destruct (lastPrinted t2); reflexivity.
  - exact IH.
  - exact IH.
  - rewrite IH. destruct (lastPrinted t2); reflexivity.
Qed.

(** [build] returns or exits with status 1; it never panics. *)
Lemma build_outcome (packageName destDir : string) (platform : gmap string string)
  (ldflags : string) (compress : bool) (s : S) :
  outcome (build environ packageName destDir platform ldflags compress s) = Ret tt
  \/ outcome (build environ packageName destDir platform ldflags compress s) = Exit 1%Z.
Proof.
  change (wp (build environ packageName destDir platform ldflags compress) s
            (fun run => outcome run = Ret tt \/ outcome run = Exit 1%Z)).
  destruct compress; unfold build; cbv zeta; repeat wp_step; wp_leaves; auto.
Qed.

(** X1: when the compile step fails, [build] prints the error of the step and
    exits with status 1 at once, with or without packaging: the output of the
    step is not printed and no other step is started. *)
Theorem compile_failure_is_fatal (packageName destDir : string)
  (platform : gmap string string) (ldflags : string) (compress : bool)
  (s s1 : S) (r : ExecResult) (err : string) :
  let c := buildCmd environ packageName destDir
             (default "" (platform !! "kernel")) (default "" (platform !! "arch"))
             ldflags compress in
  os_Run c s = (r, s1) ->
  Err r = Some err ->
  exists line,
    build environ packageName destDir platform ldflags compress s
    = (Exit 1%Z, s1,
       [EvPrint line; EvExec c r;
        EvPrint ("An error occurred during build: " +:+ err +:+ Strings.nl)]).
Proof.
  intros c Hrun Herr.
  change (wp (build environ packageName destDir platform ldflags compress) s
            (fun run =>
               exists line,
                 run = (Exit 1%Z, s1,
                        [EvPrint line; EvExec c r;
                         EvPrint ("An error occurred during build: " +:+ err
                                  +:+ Strings.nl)]))).
  unfold build. cbv zeta. fold c. wp_upto_Run.
  apply wp_Run_bind. intros r' s1' Heq. rewrite Hrun in Heq. injection Heq as <- <-.
  cbv beta. rewrite Herr. repeat wp_step.
  unfold wp. cbv [prepend outcome final events fst snd app].
  eexists. reflexivity.
Qed.

(** X2: in every run of [build] at least one step is started, every step but
    the last one succeeded, and the run returns when the last step succeeded
    and exits with status 1 when it failed: no step is ever started after a
    failed one. *)
Theorem build_stops_at_first_failure (packageName destDir : string)
  (platform : gmap string string) (ldflags : string) (compress : bool) (s : S) :
  let run := build environ packageName destDir platform ldflags compress s in
  exists pre c r,
    execs (events run) = pre ++ [(c, r)]
    /\ Forall (fun step => Err (snd step) = None) pre
    /\ outcome run = match Err r with
                     | None => Ret tt
                     | Some _ => Exit 1%Z
                     end.
Proof.
  intros run. subst run.
  change (wp (build environ packageName destDir platform ldflags compress) s
            (fun run =>
               exists pre c r,
                 execs (events run) = pre ++ [(c, r)]
                 /\ Forall (fun step => Err (snd step) = None) pre
                 /\ outcome run = match Err r with
                                  | None => Ret tt
                                  | Some _ => Exit 1%Z
                                  end)).
  destruct compress; unfold build; cbv zeta; repeat wp_step.
  all: wp_leaves.
  all: first [ exists []; do 2 eexists; split; [reflexivity|]
             | eexists [_]; do 2 eexists; split; [reflexivity|]
             | eexists [_; _]; do 2 eexists; split; [reflexivity|]
             | eexists [_; _; _]; do 2 eexists; split; [reflexivity|]
             | eexists [_; _; _; _]; do 2 eexists; split; [reflexivity|]
             | eexists [_; _; _; _; _]; do 2 eexists; split; [reflexivity|] ].
  all: split; [repeat constructor; assumption|].
  all: match goal with
       | Hlast : Err ?r = _ |- _ = match Err ?r with _ => _ end => rewrite Hlast
       end; reflexivity.
Qed.

(** X3: when the compile step succeeded and README.md is found, a failing copy
    of it ends [build] with status 1 after the message of [copyFile]: the
    copy is the second and last step, nothing is archived. *)
Theorem copy_failure_is_fatal (packageName destDir : string)
  (platform : gmap string string) (ldflags : string)
  (s s1 s2 : S) (r1 r2 : ExecResult) (err : string) :
  let c := buildCmd environ packageName destDir
             (default "" (platform !! "kernel")) (default "" (platform !! "arch"))
             ldflags true in
  let dest := Filepath.Join [destDirPath environ destDir; "README.md"] in
  let run := build environ packageName destDir platform ldflags true s in
  os_Run c s = (r1, s1) ->
  Err r1 = None ->
  statAnswer (os_Stat s1 (Filepath.Join [os_Getwd s1; "README.md"])) = true ->
  os_Run (Command "cp" ["README.md"; dest]) s1 = (r2, s2) ->
  Err r2 = Some err ->
  outcome run = Exit 1%Z
  /\ final run = s2
  /\ execs (events run) = [(c, r1); (Command "cp" ["README.md"; dest], r2)]
  /\ lastPrinted (events run)
     = Some ("An error occurred during copy operation: README.md => " +:+ dest
             +:+ Strings.nl).
Proof.
  intros c dest run Hrun1 Herr1 Hstat Hrun2 Herr2. subst run.
  change (wp (build environ packageName destDir platform ldflags true) s
            (fun run =>
               outcome run = Exit 1%Z
               /\ final run = s2
               /\ execs (events run) = [(c, r1); (Command "cp" ["README.md"; dest], r2)]
               /\ lastPrinted (events run)
                  = Some ("An error occurred during copy operation: README.md => "
                          +:+ dest +:+ Strings.nl))).
  unfold build. cbv zeta. fold c. wp_upto_Run.
  apply wp_Run_bind. intros r s1' Heq. rewrite Hrun1 in Heq. injection Heq as <- <-.
  cbv beta. rewrite Herr1. do 2 wp_step.
  rewrite Hstat. wp_upto_Run. fold dest.
  apply wp_Run_bind. intros r s2' Heq. rewrite Hrun2 in Heq. injection Heq as <- <-.
  cbv beta. rewrite Herr2. repeat wp_step.
  unfold wp. cbv [prepend outcome final events fst snd app].
  repeat split.
Qed.

(** ** The loop over the targets *)

(** The fields of a target: one when it has no separator, two or more
    otherwise. *)
Lemma platformSpec_shape (platform : string) :
  match Strings.Count platform "/" with
  | 0 => exists kernel, platformSpec platform = [kernel]
  | Datatypes.S _ => exists kernel arch others, platformSpec platform = kernel :: arch :: others
  end.
Proof.
  pose proof (Split_length (Strings.ReplaceAll platform " " "") "/") as Hlen.
  rewrite Count_ReplaceAll_empty in Hlen by discriminate.
  fold (platformSpec platform) in Hlen.
  destruct (Strings.Count platform "/") as [|n];
    destruct (platformSpec platform) as [|kernel [|arch others]]; try discriminate Hlen;
    eauto.
Qed.

Lemma forPlatforms_malformed (packageName destDir ldflags : string) (compress : bool)
  (platform : string) (rest : list string) (s : S) :
  Strings.Count platform "/" = 0 ->
  forPlatforms environ packageName destDir (platform :: rest) ldflags compress s
  = (Panic (IndexOutOfRange 1 1), s, []).
Proof.
  intros Hc. pose proof (platformSpec_shape platform) as Hshape. rewrite Hc in Hshape.
  destruct Hshape as [kernel Hspec].
  cbn [forPlatforms]. unfold platformMap. rewrite Hspec. reflexivity.
Qed.

(** How the loop can end. *)
Lemma forPlatforms_outcome (packageName destDir ldflags : string) (compress : bool)
  (platforms : list string) :
  forall s : S,
    match outcome (forPlatforms environ packageName destDir platforms ldflags compress s) with
    | Ret _ => Forall (fun p => Strings.Count p "/" <> 0) platforms
    | Exit code => code = 1%Z
    | Panic e =>
        e = IndexOutOfRange 1 1 /\ Exists (fun p => Strings.Count p "/" = 0) platforms
    end.
Proof.
  induction platforms as [|platform rest IH]; intros s.
  - constructor.
  - destruct (Strings.Count platform "/") as [|n] eqn:Hc.
    + rewrite forPlatforms_malformed by exact Hc. cbn. split; [reflexivity|].
      now apply Exists_cons_hd.
    + pose proof (platformSpec_shape platform) as Hshape. rewrite Hc in Hshape.
      destruct Hshape as (kernel & arch & others & Hspec).
      rewrite (forPlatforms_step _ _ _ _ _ _ _ _ _ _ Hspec).
      pose proof (build_outcome packageName destDir
                    (<["arch" := arch]> {["kernel" := kernel]}) ldflags compress s) as Hb.
      unfold mbind, M_bind.
      destruct (build _ _ _ _ _ _ s) as [[o s1] t1]. cbn [outcome fst] in Hb.
      destruct Hb as [-> | ->]; [|reflexivity].
      specialize (IH s1).
      destruct (forPlatforms _ _ _ _ _ _ s1) as [[o2 s2] t2].
      cbn [outcome fst] in IH |- *.
      destruct o2 as [a|code|e].
      * constructor; [rewrite Hc; discriminate | exact IH].
      * exact IH.
      * destruct IH as [-> Hex]. split; [reflexivity|]. now apply Exists_cons_tl.
Qed.

(** Without packaging the loop checks no file and starts only compile
    steps. *)
Lemma forPlatforms_plain (packageName destDir ldflags : string) (platforms : list string) :
  forall s : S,
    let run := forPlatforms environ packageName destDir platforms ldflags false s in
    stats (events run) = [] /\ Forall (fun c => Name c = "go") (commands (events run)).
Proof.
  induction platforms as [|platform rest IH]; intros s; cbv zeta.
  - split; [reflexivity|constructor].
  - destruct (Strings.Count platform "/") as [|n] eqn:Hc.
    + rewrite forPlatforms_malformed by exact Hc. split; [reflexivity|constructor].
    + pose proof (platformSpec_shape platform) as Hshape. rewrite Hc in Hshape.
      destruct Hshape as (kernel & arch & others & Hspec).
      rewrite (forPlatforms_step _ _ _ _ _ _ _ _ _ _ Hspec).
      rewrite events_bind, stats_app, commands_app.
      destruct (build_plain_run packageName destDir
                  (<["arch" := arch]> {["kernel" := kernel]}) ldflags s)
        as (text1 & text2 & ->).
      cbn [events outcome final fst snd stats commands execs map app].
      destruct (Err (fst (os_Run _ s))).
      * split; [reflexivity|]. repeat constructor.
      * specialize (IH (snd (os_Run (buildCmd environ packageName destDir
                                       (default "" ((<["arch" := arch]> {["kernel" := kernel]}
                                                     : gmap string string) !! "kernel"))
                                       (default "" ((<["arch" := arch]> {["kernel" := kernel]}
                                                     : gmap string string) !! "arch"))
                                       ldflags false) s))).
        cbv zeta in IH. destruct IH as [IHs IHc]. split; [exact IHs|].
        constructor; [reflexivity | exact IHc].
Qed.

(** When every compile step succeeds in the states the run goes through
    (the states that satisfy [reachable], which the compile steps keep), the
    loop without packaging starts one compile step per target, in the order of
    the list, and returns. *)
Lemma forPlatforms_compiles_each (packageName destDir ldflags : string)
  (platforms : list string) (reachable : S -> Prop) :
  Forall (fun p => Strings.Count p "/" <> 0) platforms ->
  (forall (c : Cmd) (st : S),
      reachable st -> Name c = "go" ->
      Err (fst (os_Run c st)) = None /\ reachable (snd (os_Run c st))) ->
  forall s : S,
    reachable s ->
    let run := forPlatforms environ packageName destDir platforms ldflags false s in
    outcome run = Ret tt
    /\ commands (events run)
       = map (fun p => buildCmd environ packageName destDir
                         (nth 0 (platformSpec p) "") (nth 1 (platformSpec p) "")
                         ldflags false) platforms.
Proof.
  intros Hall Hgo. induction Hall as [|platform rest Hc _ IH]; intros s Hs; cbv zeta.
  - split; reflexivity.
  - pose proof (platformSpec_shape platform) as Hshape.
    destruct (Strings.Count platform "/") as [|n]; [contradiction|].
    destruct Hshape as (kernel & arch & others & Hspec).
    rewrite (forPlatforms_step _ _ _ _ _ _ _ _ _ _ Hspec).
    cbn [map]. rewrite Hspec. cbn [nth].
    destruct (build_plain_run packageName destDir
                (<["arch" := arch]> {["kernel" := kernel]}) ldflags s)
      as (text1 & text2 & Hb).
    rewrite lookup_kernel, lookup_arch in Hb.
    destruct (Hgo (buildCmd environ packageName destDir kernel arch ldflags false) s
                Hs eq_refl) as [Herr Hnext].
    rewrite Herr in Hb.
    specialize (IH (snd (os_Run (buildCmd environ packageName destDir kernel arch
                                   ldflags false) s)) Hnext).
    cbv zeta in IH. destruct IH as [IHo IHc].
    unfold mbind, M_bind. rewrite Hb.
    destruct (forPlatforms _ _ _ _ _ _ _) as [[o2 s2] t2].
    cbn [outcome events fst snd] in IHo, IHc |- *.
    split; [exact IHo|].
    cbn [app commands execs map fst]. unfold commands in IHc. now rewrite IHc.
Qed.

(** ** [main] *)

(** The run of [main] after the loop: the listing, the walk and the
    output line. *)
Lemma main_run (s : S) :
  let destDir := Strings.ReplaceAll (Getenv environ "INPUT_DEST") " " "" in
  let ls := Command "ls" ["-alh"; destDir] in
  let loop :=
    forPlatforms environ (Strings.ReplaceAll (Getenv environ "INPUT_PACKAGE") " " "")
      destDir (Strings.Split (Getenv environ "INPUT_PLATFORMS") ",")
      (Getenv environ "INPUT_LDFLAGS")
      (parseCompress mapLower (Getenv environ "INPUT_COMPRESS")) s in
  main environ mapLower s =
    match outcome loop with
    | Ret _ =>
        let r := fst (os_Run ls (final loop)) in
        let s2 := snd (os_Run ls (final loop)) in
        match Err r with
        | Some err =>
            (Exit 1%Z, s2,
             events loop
             ++ [EvExec ls r;
                 EvPrint ("An error occurred during ls operation: " +:+ err
                          +:+ Strings.nl)])
        | None =>
            (Ret tt, s2,
             events loop
             ++ [EvExec ls r;
                 EvPrint ("--- BUILD FILES ---" +:+ Strings.nl);
                 EvPrint (Stdout r +:+ Strings.nl);
                 EvPrint (setOutput (fst (Walk collect (os_Tree s2 destDir) destDir []))
                          +:+ Strings.nl)])
        end
    | Exit code => (Exit code, final loop, events loop)
    | Panic e => (Panic e, final loop, events loop)
    end.
Proof.
  intros destDir ls loop. subst loop. unfold main. fold destDir. fold ls.
  unfold_monad.
  destruct (forPlatforms _ _ _ _ _ _ s) as [[[[]|code|e] s1] t1];
    cbn [outcome final events fst snd]; try reflexivity.
  destruct (os_Run ls s1) as [r s2]. cbn [fst snd].
  destruct (Err r) as [err|]; [reflexivity|].
  pose proof (Walk_collect_never_fails (os_Tree s2 destDir) destDir []) as Hnil.
  destruct (Walk collect (os_Tree s2 destDir) destDir []) as [files err].
  cbn [snd] in Hnil. subst err. reflexivity.
Qed.

(** Rewrites the run of [main] from [s] with [main_run]. *)
Ltac unfold_main s :=
  let Hmain := fresh "Hmain" in
  pose proof (main_run s) as Hmain; cbv zeta in Hmain; rewrite Hmain; clear Hmain.

(** X4: when the build of the first target does not return (its compile step
    or a packaging step failed), the run of [main] is the run of that build
    and nothing more: no later target is built, the destination directory is
    not listed and no output line is printed. *)
Theorem first_target_failure_ends_main (platform : string) (rest : list string)
  (kernel arch : string) (others : list string) (s : S) :
  let packageName := Strings.ReplaceAll (Getenv environ "INPUT_PACKAGE") " " "" in
  let destDir := Strings.ReplaceAll (Getenv environ "INPUT_DEST") " " "" in
  let first :=
    build environ packageName destDir (<["arch" := arch]> {["kernel" := kernel]})
      (Getenv environ "INPUT_LDFLAGS")
      (parseCompress mapLower (Getenv environ "INPUT_COMPRESS")) s in
  Strings.Split (Getenv environ "INPUT_PLATFORMS") "," = platform :: rest ->
  platformSpec platform = kernel :: arch :: others ->
  outcome first <> Ret tt ->
  main environ mapLower s = first.
Proof.
  intros packageName destDir first Hsplit Hspec Hout.
  unfold_main s. rewrite Hsplit.
  rewrite (forPlatforms_step _ _ _ _ _ _ _ _ _ _ Hspec).
  fold packageName destDir. unfold mbind, M_bind. subst first.
  destruct (build _ _ _ _ _ _ s) as [[[[]|code|e] s1] t1];
    cbn [outcome fst] in Hout |- *; [contradiction| |]; reflexivity.
Qed.

(** X5: without packaging, when every compile step succeeds in the states the
    run goes through (the states that satisfy [reachable], which the compile
    steps keep), [main] starts exactly one compile step per target, in the
    order of the target list, and then the listing of the destination
    directory. *)
Theorem one_compile_step_per_target (reachable : S -> Prop) (s : S) :
  let packageName := Strings.ReplaceAll (Getenv environ "INPUT_PACKAGE") " " "" in
  let destDir := Strings.ReplaceAll (Getenv environ "INPUT_DEST") " " "" in
  let platforms := Strings.Split (Getenv environ "INPUT_PLATFORMS") "," in
  let compileStep (platform : string) :=
    buildCmd environ packageName destDir
      (nth 0 (platformSpec platform) "") (nth 1 (platformSpec platform) "")
      (Getenv environ "INPUT_LDFLAGS") false in
  parseCompress mapLower (Getenv environ "INPUT_COMPRESS") = false ->
  Forall (fun p => Strings.Count p "/" <> 0) platforms ->
  reachable s ->
  (forall (c : Cmd) (st : S),
      reachable st -> Name c = "go" ->
      Err (fst (os_Run c st)) = None /\ reachable (snd (os_Run c st))) ->
  commands (events (main environ mapLower s))
  = map compileStep platforms ++ [Command "ls" ["-alh"; destDir]].
Proof.
  intros packageName destDir platforms compileStep Hcompress Hall Hs Hgo.
  unfold_main s. rewrite Hcompress.
  fold packageName destDir platforms.
  destruct (forPlatforms_compiles_each packageName destDir
              (Getenv environ "INPUT_LDFLAGS") platforms reachable Hall Hgo s Hs)
    as [Hout Hcmds].
  rewrite Hout.
  destruct (Err (fst (os_Run _ _))); cbn [events snd];
    rewrite commands_app, Hcmds; reflexivity.
Qed.

(** X6: when the loop over the targets returned and the listing of the
    destination directory fails, [main] prints the error of the listing and
    exits with status 1: the directory is not walked and no output line is
    printed.  The listing is given the destination as configured, not joined
    with the workspace. *)
Theorem listing_failure_is_fatal (s : S) (err : string) :
  let destDir := Strings.ReplaceAll (Getenv environ "INPUT_DEST") " " "" in
  let ls := Command "ls" ["-alh"; destDir] in
  let loop :=
    forPlatforms environ (Strings.ReplaceAll (Getenv environ "INPUT_PACKAGE") " " "")
      destDir (Strings.Split (Getenv environ "INPUT_PLATFORMS") ",")
      (Getenv environ "INPUT_LDFLAGS")
      (parseCompress mapLower (Getenv environ "INPUT_COMPRESS")) s in
  outcome loop = Ret tt ->
  Err (fst (os_Run ls (final loop))) = Some err ->
  main environ mapLower s
  = (Exit 1%Z, snd (os_Run ls (final loop)),
     events loop
     ++ [EvExec ls (fst (os_Run ls (final loop)));
         EvPrint ("An error occurred during ls operation: " +:+ err +:+ Strings.nl)]).
Proof.
  intros destDir ls loop Hout Herr.
  unfold_main s. fold destDir ls loop.
  rewrite Hout, Herr. reflexivity.
Qed.

(** The walk with the callback of [main], from any slice of paths. *)
Lemma walk_collect_paths (tree : WalkNode) :
  forall (path : string) (files : list string),
    walk collect path tree files = (files ++ treePaths path tree, None).
Proof.
  induction tree as [e| |e|entries IH] using WalkNode_entries_ind; intros path files;
    try reflexivity.
  cbn [walk treePaths]. unfold collect at 1. cbv iota beta.
  match goal with
  | |- _ = (files ++ path :: ?l, None) =>
      change (files ++ path :: l) with (files ++ ([path] ++ l));
      rewrite (app_assoc files [path] l)
  end.
  generalize (files ++ [path]) as acc.
  induction IH as [|[name child] entries Hchild _ IHloop]; intros acc.
  - now rewrite app_nil_r.
  - simpl in Hchild.
    assert (Hstep : forall acc',
               walk collect (Filepath.Join [path; name]) child acc'
               = (acc' ++ treePaths (Filepath.Join [path; name]) child, None))
      by (intros acc'; apply Hchild).
    destruct child as [e| |e|sub].
    + unfold collect at 1. cbv iota beta. rewrite IHloop.
      cbn [treePaths]. now rewrite <- !app_assoc.
    + rewrite Hstep, IHloop. now rewrite <- !app_assoc.
    + rewrite Hstep, IHloop. now rewrite <- !app_assoc.
    + rewrite Hstep, IHloop. now rewrite <- !app_assoc.
Qed.

Lemma treePaths_head (root : string) (tree : WalkNode) :
  exists rest, treePaths root tree = root :: rest.
Proof. destruct tree; eexists; reflexivity. Qed.

Lemma Walk_collect_paths (tree : WalkNode) (root : string) (files : list string) :
  Walk collect tree root files = (files ++ treePaths root tree, None).
Proof.
  unfold Walk. destruct tree; try (rewrite walk_collect_paths; reflexivity).
  reflexivity.
Qed.

(** X7: the walk at the end of [main] collects exactly one path per node of
    the tree at the destination, in pre-order: the destination itself first,
    directories as well as files, and also the names whose [Lstat] fails and
    the directories that cannot be read; it never reports an error. *)
Theorem walk_collects_every_path (tree : WalkNode) (root : string) :
  Walk collect tree root [] = (treePaths root tree, None)
  /\ hd_error (treePaths root tree) = Some root.
Proof.
  split; [apply (Walk_collect_paths tree root [])|].
  destruct (treePaths_head root tree) as [rest ->]. reflexivity.
Qed.

(** X8: when [main] returns, the last thing it printed is the output line with
    the paths that the walk finds at the destination in the final state of
    the machine, and the first of these paths is the destination directory
    itself, as configured. *)
Theorem output_line_reports_final_tree (s : S) :
  let destDir := Strings.ReplaceAll (Getenv environ "INPUT_DEST") " " "" in
  let run := main environ mapLower s in
  outcome run = Ret tt ->
  exists rest,
    fst (Walk collect (os_Tree (final run) destDir) destDir []) = destDir :: rest
    /\ lastPrinted (events run)
       = Some ("::set-output name=files::" +:+ Strings.Join (destDir :: rest) " "
               +:+ Strings.nl).
Proof.
  intros destDir run Hout. subst run. revert Hout.
  unfold_main s. fold destDir.
  destruct (outcome (forPlatforms _ _ _ _ _ _ s)) as [[]|code|e];
    cbn [outcome fst]; try discriminate.
  destruct (Err (fst (os_Run _ _))) as [err|]; cbn [outcome final fst snd];
    [discriminate|].
  intros _. rewrite Walk_collect_paths. cbn [fst app].
  destruct (treePaths_head destDir (os_Tree (snd (os_Run (Command "ls" ["-alh"; destDir])
              (final (forPlatforms environ
                 (Strings.ReplaceAll (Getenv environ "INPUT_PACKAGE") " " "") destDir
                 (Strings.Split (Getenv environ "INPUT_PLATFORMS") ",")
                 (Getenv environ "INPUT_LDFLAGS")
                 (parseCompress mapLower (Getenv environ "INPUT_COMPRESS")) s)))) destDir))
    as [rest Hrest].
  exists rest. split; [exact Hrest|].
  cbn [events snd]. rewrite lastPrinted_app, Hrest. reflexivity.
Qed.

(** X9: [main] ends in one of three ways only: it returns, and then every
    target had a separator; or it exits, and then with status 1; or it
    panics, and then with "index out of range [1] with length 1" at a target
    without separator. *)
Theorem main_outcomes (s : S) :
  let platforms := Strings.Split (Getenv environ "INPUT_PLATFORMS") "," in
  match outcome (main environ mapLower s) with
  | Ret _ => Forall (fun p => Strings.Count p "/" <> 0) platforms
  | Exit code => code = 1%Z
  | Panic e =>
      e = IndexOutOfRange 1 1 /\ Exists (fun p => Strings.Count p "/" = 0) platforms
  end.
Proof.
  intros platforms. unfold_main s. fold platforms.
  pose proof (forPlatforms_outcome
                (Strings.ReplaceAll (Getenv environ "INPUT_PACKAGE") " " "")
                (Strings.ReplaceAll (Getenv environ "INPUT_DEST") " " "")
                (Getenv environ "INPUT_LDFLAGS")
                (parseCompress mapLower (Getenv environ "INPUT_COMPRESS"))
                platforms s) as Hloop.
  destruct (outcome (forPlatforms _ _ _ _ _ _ s)) as [a|code|e]; cbn [outcome fst].
  - destruct (Err (fst (os_Run _ _))); cbn [outcome fst]; [reflexivity | exact Hloop].
  - exact Hloop.
  - exact Hloop.
Qed.

(** X10: when the first target of the list has no separator, in particular when
    INPUT_PLATFORMS is unset or empty, [main] panics with "index out of range
    [1] with length 1" before it has printed anything or started any
    subprocess. *)
Theorem missing_targets_panic (first : string) (others : list string) (s : S) :
  Strings.Split (Getenv environ "INPUT_PLATFORMS") "," = first :: others ->
  Strings.Count first "/" = 0 ->
  main environ mapLower s = (Panic (IndexOutOfRange 1 1), s, []).
Proof.
  intros Hsplit Hc. unfold_main s. rewrite Hsplit.
  rewrite forPlatforms_malformed by exact Hc. reflexivity.
Qed.

(** X11: when the compress flag is not read as true, [main] packages nothing,
    however many targets there are and wherever the run stops: it checks no
    file, and every subprocess it starts is a compile step or the listing of
    the destination directory. *)
Theorem no_packaging_without_compress (s : S) :
  let destDir := Strings.ReplaceAll (Getenv environ "INPUT_DEST") " " "" in
  let run := main environ mapLower s in
  parseCompress mapLower (Getenv environ "INPUT_COMPRESS") = false ->
  stats (events run) = []
  /\ Forall (fun c => Name c = "go" \/ c = Command "ls" ["-alh"; destDir])
       (commands (events run)).
Proof.
  intros destDir run Hcompress. subst run.
  unfold_main s. rewrite Hcompress. fold destDir.
  destruct (forPlatforms_plain
              (Strings.ReplaceAll (Getenv environ "INPUT_PACKAGE") " " "") destDir
              (Getenv environ "INPUT_LDFLAGS")
              (Strings.Split (Getenv environ "INPUT_PLATFORMS") ",") s) as [Hstats Hcmds].
  assert (Hgo : Forall (fun c => Name c = "go" \/ c = Command "ls" ["-alh"; destDir])
                  (commands (events (forPlatforms environ
                     (Strings.ReplaceAll (Getenv environ "INPUT_PACKAGE") " " "") destDir
                     (Strings.Split (Getenv environ "INPUT_PLATFORMS") ",")
                     (Getenv environ "INPUT_LDFLAGS") false s)))).
  { eapply Forall_impl; [exact Hcmds|]. intros c Hc. now left. }
  destruct (outcome (forPlatforms _ _ _ _ _ _ s)) as [a|code|e]; cbn [events snd].
  - destruct (Err (fst (os_Run _ _))); cbn [events snd];
      rewrite stats_app, commands_app, Hstats; (split; [reflexivity|]);
      apply Forall_app; (split; [exact Hgo|]); repeat constructor; now right.
  - split; assumption.
  - split; assumption.
Qed.

(** ** Reading a target *)

Lemma ReplaceAll_append (a b : string) (old : ascii) (new : string) :
  Strings.ReplaceAll (a +:+ b) old new
  = Strings.ReplaceAll a old new +:+ Strings.ReplaceAll b old new.
Proof.
  induction a as [|c a IH]; [reflexivity|].
  change (String c a +:+ b) with (String c (a +:+ b)).
  cbn [Strings.ReplaceAll]. rewrite IH.
  destruct (Ascii.eqb c old); [now rewrite append_assoc | reflexivity].
Qed.

Lemma ReplaceAll_strips (v : string) (old : ascii) :
  Strings.Count (Strings.ReplaceAll v old "") old = 0.
Proof.
  induction v as [|c v IH]; [reflexivity|]. cbn [Strings.ReplaceAll].
  destruct (Ascii.eqb c old) eqn:Heq; [exact IH|].
  cbn [Strings.Count]. now rewrite Heq.
Qed.

Lemma Split_not_nil (s : string) (sep : ascii) : Strings.Split s sep <> [].
Proof.
  intros Heq. pose proof (Split_length s sep) as Hlen. rewrite Heq in Hlen.
  discriminate Hlen.
Qed.

Lemma Split_single (n : string) (sep : ascii) :
  Strings.Count n sep = 0 -> Strings.Split n sep = [n].
Proof.
  induction n as [|c n IH]; [reflexivity|].
  cbn [Strings.Count Strings.Split].
  destruct (Ascii.eqb c sep); [discriminate|].
  intros Hc. now rewrite IH.
Qed.

Lemma Split_append_sep (a b : string) (sep : ascii) :
  Strings.Count a sep = 0 ->
  Strings.Split (a +:+ String sep b) sep = a :: Strings.Split b sep.
Proof.
  induction a as [|c a IH]; intros Hc.
  - change ("" +:+ String sep b) with (String sep b).
    cbn [Strings.Split]. now rewrite Ascii.eqb_refl.
  - change (String c a +:+ String sep b) with (String c (a +:+ String sep b)).
    cbn [Strings.Count] in Hc. cbn [Strings.Split].
    destruct (Ascii.eqb c sep); [discriminate Hc|].
    now rewrite IH.
Qed.

Lemma Join_Split (s : string) (sep : ascii) :
  Strings.Join (Strings.Split s sep) (String sep "") = s.
Proof.
  induction s as [|c s IH]; [reflexivity|].
  cbn [Strings.Split].
  pose proof (Split_not_nil s sep) as Hne.
  destruct (Strings.Split s sep) as [|f fs]; [contradiction|].
  destruct (Ascii.eqb c sep) eqn:Heq.
  - apply Ascii.eqb_eq in Heq. subst c.
    change (Strings.Join ("" :: f :: fs) (String sep ""))
      with (String sep (Strings.Join (f :: fs) (String sep ""))).
    now rewrite IH.
  - destruct fs as [|g gs].
    + cbn [Strings.Join] in IH |- *. now rewrite IH.
    + change (Strings.Join (String c f :: g :: gs) (String sep ""))
        with (String c (Strings.Join (f :: g :: gs) (String sep ""))).
      now rewrite IH.
Qed.

Lemma Split_fields_no_sep (s : string) (sep : ascii) :
  Forall (fun field => Strings.Count field sep = 0) (Strings.Split s sep).
Proof.
  induction s as [|c s IH]; [repeat constructor|].
  cbn [Strings.Split].
  destruct (Ascii.eqb c sep) eqn:Heq.
  - constructor; [reflexivity | exact IH].
  - destruct (Strings.Split s sep) as [|f fs]; [repeat constructor; cbn; now rewrite Heq|].
    inversion IH as [|? ? Hf Hfs]; subst.
    constructor; [|exact Hfs]. cbn [Strings.Count]. now rewrite Heq.
Qed.

Lemma Split_fields_keep (s : string) (sep x : ascii) :
  Strings.Count s x = 0 ->
  Forall (fun field => Strings.Count field x = 0) (Strings.Split s sep).
Proof.
  induction s as [|c s IH]; [repeat constructor|].
  cbn [Strings.Count Strings.Split].
  destruct (Ascii.eqb c x) eqn:Hx; [discriminate|]. intros Hc. specialize (IH Hc).
  destruct (Ascii.eqb c sep).
  - constructor; [reflexivity | exact IH].
  - destruct (Strings.Split s sep) as [|f fs]; [repeat constructor; cbn; now rewrite Hx|].
    inversion IH as [|? ? Hf Hfs]; subst.
    constructor; [|exact Hfs]. cbn [Strings.Count]. now rewrite Hx.
Qed.

(** X12: the first subprocess of [main], when the first target has its two
    fields, is the compile step of that target with the configuration as
    read: package and destination with every space removed, the linker flags
    as given. *)
Theorem configuration_reaches_compile_step (platform : string) (rest : list string)
  (kernel arch : string) (others : list string) (s : S) :
  let packageName := Strings.ReplaceAll (Getenv environ "INPUT_PACKAGE") " " "" in
  let destDir := Strings.ReplaceAll (Getenv environ "INPUT_DEST") " " "" in
  let compress := parseCompress mapLower (Getenv environ "INPUT_COMPRESS") in
  Strings.Split (Getenv environ "INPUT_PLATFORMS") "," = platform :: rest ->
  platformSpec platform = kernel :: arch :: others ->
  hd_error (commands (events (main environ mapLower s)))
  = Some (withEnv
            (Command "go"
               ["build"; "-buildmode"; "exe"; "-ldflags"; Getenv environ "INPUT_LDFLAGS";
                "-o";
                Filepath.Join
                  [Filepath.Join [Getenv environ "GITHUB_WORKSPACE"; destDir];
                   buildFileName (Getenv environ "INPUT_NAME") kernel arch compress];
                packagePath packageName])
            (Environ environ ++ ["GOOS=" +:+ kernel; "GOARCH=" +:+ arch]))
  /\ Strings.Count packageName " " = 0
  /\ Strings.Count destDir " " = 0.
Proof.
  intros packageName destDir compress Hsplit Hspec.
  split; [|split; apply ReplaceAll_strips].
  unfold main. fold packageName destDir compress. rewrite Hsplit.
  apply bind_first_command.
  rewrite (forPlatforms_step _ _ _ _ _ _ _ _ _ _ Hspec).
  apply bind_first_command.
  rewrite build_first_command, lookup_kernel, lookup_arch. reflexivity.
Qed.

(** X13: the destination path is empty, so that the archive and the cleanup run
    in the working directory of the process and the binary is written there,
    exactly when neither a workspace nor a destination is configured. *)
Theorem destDirPath_empty (destDir : string) :
  destDirPath environ destDir = ""
  <-> Getenv environ "GITHUB_WORKSPACE" = "" /\ destDir = "".
Proof.
  assert (Hclean : forall p, Filepath.Clean p <> "").
  { intros p. unfold Filepath.Clean. destruct p as [|c rest]; [discriminate|].
    cbv zeta.
    destruct (if Ascii.eqb c Filepath.Separator then _ else _) as [|b out];
      [discriminate|].
    cbn [rev]. destruct (rev out); discriminate. }
  unfold destDirPath. split.
  - destruct (Getenv environ "GITHUB_WORKSPACE") as [|c w].
    + destruct destDir as [|d rest]; [auto|].
      cbn [Filepath.Join]. intros Heq. now apply Hclean in Heq.
    + cbn [Filepath.Join]. intros Heq. now apply Hclean in Heq.
  - intros [-> ->]. reflexivity.
Qed.

(** X14: a target "kernel/arch" whose two parts have no separator is read as
    exactly these two fields, with every space removed from them, also the
    spaces inside; reading it changes nothing and starts nothing. *)
Theorem platformMap_of_pair (kernel arch : string) (s : S) :
  Strings.Count kernel "/" = 0 ->
  Strings.Count arch "/" = 0 ->
  platformMap (kernel +:+ "/" +:+ arch) s
  = (Ret (<["arch" := Strings.ReplaceAll arch " " ""]>
            {["kernel" := Strings.ReplaceAll kernel " " ""]}), s, []).
Proof.
  intros Hk Ha. unfold platformMap, platformSpec.
  rewrite ReplaceAll_append.
  change ("/" +:+ arch) with (String "/" arch).
  assert (Hsep : Strings.ReplaceAll (String "/" arch) " " ""
                 = String "/" (Strings.ReplaceAll arch " " "")) by reflexivity.
  rewrite Hsep, Split_append_sep, Split_single.
  - reflexivity.
  - now rewrite Count_ReplaceAll_empty by discriminate.
  - now rewrite Count_ReplaceAll_empty by discriminate.
Qed.

(** X15: the fields of a target are the target with its spaces removed, cut at
    the separators: joined by the separator they give that string back, there
    is one more field than the target has separators, and no field holds a
    separator or a space (a field can be empty). *)
Theorem platformSpec_fields (platform : string) :
  Strings.Join (platformSpec platform) "/" = Strings.ReplaceAll platform " " ""
  /\ length (platformSpec platform) = Datatypes.S (Strings.Count platform "/")
  /\ Forall (fun field => Strings.Count field "/" = 0 /\ Strings.Count field " " = 0)
       (platformSpec platform).
Proof.
  unfold platformSpec. split; [apply Join_Split|]. split.
  - rewrite Split_length. now rewrite Count_ReplaceAll_empty by discriminate.
  - pose proof (Split_fields_no_sep (Strings.ReplaceAll platform " " "") "/") as Hsep.
    pose proof (Split_fields_keep (Strings.ReplaceAll platform " " "") "/" " "
                  (ReplaceAll_strips platform " ")) as Hspace.
    induction Hsep as [|f fs Hf _ IH]; [constructor|].
    inversion Hspace as [|? ? Hg Hgs]; subst.
    constructor; [split; assumption | now apply IH].
Qed.

End Properties.

Import Scenario.

(** C6 (where the code departs from it): the walk meets a directory it
    cannot read and a name whose [Lstat] fails, and [main] still ends well
    and reports the paths, the unreadable ones among them. *)
Theorem walk_errors_not_fatal :
  let run := main (inputs "linux/amd64" "false") noUnicode walkErrors in
  os_Tree walkErrors "dist"
  = NodeDir [("app-linux-amd64", NodeFile);
             ("cache", NodeDirErr "open dist/cache: permission denied");
             ("lost", NodeLstatErr "lstat dist/lost: no such file or directory")]
  /\ outcome run = Ret tt
  /\ lastPrinted (events run)
     = Some ("::set-output name=files::dist dist/app-linux-amd64 dist/cache dist/lost"
             +:+ Strings.nl).
Proof. repeat split; vm_compute; reflexivity. Qed.

(** ** The program on concrete machines *)



(** Counterexample to C1 as stated: a target with two separators is built
    as linux/amd64 and the run ends well; a target without separator after a
    good one stops the run only after the good one was built. *)
Lemma malformed_target_not_rejected :
  Strings.Count "linux/amd64/v8" "/" = 2
  /\ ~ rejectedBeforeBuild (main (inputs "linux/amd64/v8" "false") noUnicode Scripted.happy)
  /\ outcome (main (inputs "linux/amd64/v8" "false") noUnicode Scripted.happy) = Ret tt
  /\ commands (events (main (inputs "linux/amd64/v8" "false") noUnicode Scripted.happy))
     = [buildCmd (inputs "linux/amd64/v8" "false") "" "dist" "linux" "amd64" "" false;
        Command "ls" ["-alh"; "dist"]]
  /\ Strings.Count "darwin" "/" = 0
  /\ ~ rejectedBeforeBuild (main (inputs "linux/amd64,darwin" "false") noUnicode Scripted.happy)
  /\ outcome (main (inputs "linux/amd64,darwin" "false") noUnicode Scripted.happy)
     = Panic (IndexOutOfRange 1 1)
  /\ commands (events (main (inputs "linux/amd64,darwin" "false") noUnicode Scripted.happy))
     = [buildCmd (inputs "linux/amd64,darwin" "false") "" "dist" "linux" "amd64" "" false].
Proof.
  repeat split; try (vm_compute; reflexivity).
  - intros [Hout _]. apply Hout. vm_compute. reflexivity.
  - intros [_ Hcmds]. vm_compute in Hcmds. discriminate Hcmds.
Qed.

(** Counterexample to C3 as stated: the existence checks fail with
    "permission denied", yet [fileExists] answers true, both files are
    copied and archived, and the run of [build] ends well. *)
Lemma stat_failure_not_fatal :
  os_Stat statDenied (Filepath.Join [os_Getwd statDenied; "README.md"])
  = Some (ErrOther "permission denied")
  /\ outcome (fileExists "README.md" statDenied) = Ret true
  /\ ~ fatal (build (inputs "linux/amd64" "true") "" "dist" linux_amd64 "" true statDenied)
  /\ outcome (build (inputs "linux/amd64" "true") "" "dist" linux_amd64 "" true statDenied)
     = Ret tt
  /\ commands (events (build (inputs "linux/amd64" "true") "" "dist" linux_amd64 "" true
                         statDenied))
     = [buildCmd (inputs "linux/amd64" "true") "" "dist" "linux" "amd64" "" true;
        Command "cp" ["README.md"; "/github/workspace/dist/README.md"];
        Command "cp" ["LICENSE"; "/github/workspace/dist/LICENSE"];
        tarCmd (inputs "linux/amd64" "true") "dist" "app-linux-amd64.tar.gz"
          ["app"; "README.md"; "LICENSE"];
        cleanCmd (inputs "linux/amd64" "true") "dist" ["app"; "README.md"; "LICENSE"];
        md5Cmd (inputs "linux/amd64" "true") "dist"].
Proof.
  repeat split; try (vm_compute; reflexivity).
  intros (code & Hout & _). vm_compute in Hout. discriminate Hout.
Qed.

(** Counterexample to C4 as stated: " true" trimmed and compared without
    regard to case equals "true", but the program reads the flag as false. *)
Lemma untrimmed_flag_is_false :
  Spec.spec_parseCompress noUnicode " true" = true
  /\ parseCompress noUnicode " true" = false
  /\ Spec.spec_parseCompress noUnicode "TRUE " = true
  /\ parseCompress noUnicode "TRUE " = false.
Proof. repeat split; vm_compute; reflexivity. Qed.

(** On the machine that denies every existence check, [build] copies
    README.md right after the compile step. *)
Lemma fileExists_spec_witness :
  nth_error (commands (events (build (inputs "linux/amd64" "true") "" "dist" linux_amd64 ""
                                 true statDenied))) 1
  = Some (Command "cp" ["README.md"; "/github/workspace/dist/README.md"]).
Proof.
  apply (proj2 (fileExists_spec (inputs "linux/amd64" "true") "" "dist" linux_amd64 ""
                  "README.md" statDenied)
           Scripted.ok statDenied "permission denied");
    reflexivity.
Defined.

(** "True" is one of the sixteen spellings. *)
Lemma parseCompress_spec_witness : parseCompress noUnicode "True" = true.
Proof.
  apply (parseCompress_spec noUnicode "True"). left.
  exists "T"%char, "r"%char, "u"%char, "e"%char. repeat split; auto.
Defined.

(** The machine where only the shell fails meets the premises of
    [diagnostic_step_after_cleanup]: the run of [build] ends with exit
    status 1. *)
Lemma diagnostic_step_after_cleanup_witness :
  outcome (build (inputs "linux/amd64" "true") "" "dist" linux_amd64 "" true shellFails)
  = Exit 1%Z.
Proof.
  destruct (diagnostic_step_after_cleanup (inputs "linux/amd64" "true") "" "dist"
              linux_amd64 "" shellFails
              [(buildCmd (inputs "linux/amd64" "true") "" "dist" "linux" "amd64" "" true,
                Scripted.ok);
               (tarCmd (inputs "linux/amd64" "true") "dist" "app-linux-amd64.tar.gz" ["app"],
                Scripted.ok)]
              [(md5Cmd (inputs "linux/amd64" "true") "dist", Scripted.failed)]
              (cleanCmd (inputs "linux/amd64" "true") "dist" ["app"])
              Scripted.ok)
    as (r' & Hpost & _ & _ & _ & Hexit).
  - vm_compute. reflexivity.
  - reflexivity.
  - reflexivity.
  - apply Hexit. injection Hpost as <-. discriminate.
Defined.

(** The simulated checkout meets the premises of
    [archive_and_cleanup_steps]: the compile step and the copy succeed, the
    archive step is there, the README is staged, the LICENSE is not. *)
Lemma archive_and_cleanup_steps_witness :
  (exists pre c r post,
      execs (events (build (inputs "linux/amd64" "true") "" "dist" linux_amd64 "" true
                       checkout))
      = pre ++ (c, r) :: post /\ Name c = "tar")
  /\ exists readme license : bool,
      readme = true /\ license = false
      /\ Args (tarCmd (inputs "linux/amd64" "true") "dist" "app-linux-amd64.tar.gz"
                 ["app"; "README.md"])
         = ["-cvzf"; "app-linux-amd64.tar.gz"; "app"]
           ++ (if readme then ["README.md"] else [])
           ++ (if license then ["LICENSE"] else []).
Proof.
  pose proof (archive_and_cleanup_steps (inputs "linux/amd64" "true") "" "dist"
                linux_amd64 "" checkout) as [Hreach Hshape].
  split.
  - apply Hreach. vm_compute. intros step [<- | [<- | [<- | [<- | [<- | []]]]]] Hname;
      solve [reflexivity | destruct Hname as [Hn | Hn]; discriminate Hn].
  - destruct (Hshape
                [(buildCmd (inputs "linux/amd64" "true") "" "dist" "linux" "amd64" "" true,
                  Sim.ok "");
                 (Command "cp" ["README.md"; "/github/workspace/dist/README.md"], Sim.ok "")]
                [(cleanCmd (inputs "linux/amd64" "true") "dist" ["app"; "README.md"],
                  Sim.ok "");
                 (md5Cmd (inputs "linux/amd64" "true") "dist", Sim.fails "127")]
                (tarCmd (inputs "linux/amd64" "true") "dist" "app-linux-amd64.tar.gz"
                   ["app"; "README.md"])
                (Sim.ok ""))
      as (readme & license & _ & Hreadme & Hlicense & Hargs & _).
    + vm_compute. reflexivity.
    + reflexivity.
    + exists readme, license. split; [|split].
      * apply Hreadme. vm_compute. auto.
      * destruct license; [|reflexivity].
        destruct Hlicense as [Hstaged _]. specialize (Hstaged eq_refl).
        vm_compute in Hstaged. destruct Hstaged as [Hs | [Hs | []]]; discriminate Hs.
      * exact Hargs.
Defined.

(** Counterexample to C5 as stated: on the simulated checkout the
    destination directory ends up with exactly the two binaries, but the
    artifact list names three paths, the directory itself first. *)
Lemma artifact_list_names_directory :
  let run := main (inputs "linux/amd64,windows/arm64" "false") noUnicode checkout in
  outcome run = Ret tt
  /\ Sim.listing (final run) "dist" = ["app-linux-amd64"; "app-windows-arm64.exe"]
  /\ lastPrinted (events run)
     = Some (setOutput ["dist"; "dist/app-linux-amd64"; "dist/app-windows-arm64.exe"]
             +:+ Strings.nl)
  /\ lastPrinted (events run)
     <> Some (setOutput ["dist/app-linux-amd64"; "dist/app-windows-arm64.exe"]
              +:+ Strings.nl).
Proof.
  repeat split; try (vm_compute; reflexivity).
  vm_compute. discriminate.
Qed.

(** Packaging on the simulated checkout: the archive holds the binary and
    the staged README, both are gone from the destination directory, and the
    run stops at the shell step, which finds no program of that name. *)
Example packaging_on_checkout :
  let run := build (inputs "linux/amd64" "true") "" "dist" linux_amd64 "" true checkout in
  Sim.at_ (final run) "/github/workspace" "dist"
  = Some (Sim.Directory [("app-linux-amd64.tar.gz", Sim.Archive ["app"; "README.md"])])
  /\ outcome run = Exit 1%Z
  /\ map (fun step => (Name (fst step), Err (snd step))) (execs (events run))
     = [("go", None); ("cp", None); ("tar", None); ("rm", None);
        ("/bin/sh", Some "exit status 127")].
Proof. repeat split; vm_compute; reflexivity. Qed.

(** ** The two-target scenario end to end *)

Lemma copyElem_plain (rooted : bool) (n : string) (out : list ascii) (dotdot : nat) :
  Strings.Count n "/" = 0 ->
  Filepath.copyElem rooted n out dotdot = rev (list_ascii_of_string n) ++ out.
Proof.
  revert out. induction n as [|c n IH]; intros out Hc; [reflexivity|].
  cbn [Strings.Count] in Hc. cbn [Filepath.copyElem list_ascii_of_string rev].
  unfold Filepath.Separator.
  destruct (Ascii.eqb c "/") eqn:Hsep; [discriminate Hc|].
  rewrite IH by exact Hc. now rewrite <- app_assoc.
Qed.

Lemma cleanLoop_plain (rooted : bool) (n : string) (out : list ascii) (dotdot : nat) :
  plainName n ->
  Filepath.cleanLoop rooted n out dotdot =
    rev (list_ascii_of_string n)
    ++ (if (rooted && negb (Nat.eqb (length out) 1))
           || (negb rooted && negb (Nat.eqb (length out) 0))
        then Filepath.Separator :: out else out).
Proof.
  intros [Hc Hlen].
  destruct n as [|c [|c1 [|c2 n]]]; cbn [String.length] in Hlen; try lia.
  cbn [Strings.Count] in Hc.
  destruct (Ascii.eqb c "/") eqn:Hs0; [discriminate Hc|].
  destruct (Ascii.eqb c1 "/") eqn:Hs1; [discriminate Hc|].
  destruct (Ascii.eqb c2 "/") eqn:Hs2; [discriminate Hc|].
  cbn [Filepath.cleanLoop]. unfold Filepath.Separator. rewrite Hs0, Hs1, Hs2.
  assert (Hreal : forall out',
             Filepath.copyElem rooted (String c1 (String c2 n)) (c :: out') dotdot
             = rev (list_ascii_of_string (String c (String c1 (String c2 n)))) ++ out').
  { intros out'. rewrite copyElem_plain.
    - cbn [list_ascii_of_string rev]. now rewrite <- !app_assoc.
    - cbn [Strings.Count]. now rewrite Hs1, Hs2. }
  destruct (Ascii.eqb c "."); [destruct (Ascii.eqb c1 ".")|]; apply Hreal.
Qed.

Lemma string_of_rev_app (n : string) (out : list ascii) :
  string_of_list_ascii (rev (rev (list_ascii_of_string n) ++ out))
  = string_of_list_ascii (rev out) +:+ n.
Proof.
  rewrite rev_app_distr, rev_involutive.
  induction (rev out) as [|c l IH].
  - apply string_of_list_ascii_of_string.
  - cbn [app string_of_list_ascii]. rewrite IH. reflexivity.
Qed.

Lemma rev_app_not_nil (n : string) (out : list ascii) :
  out <> [] -> rev (list_ascii_of_string n) ++ out <> [].
Proof. intros Hne Heq. apply app_eq_nil in Heq as [_ Heq]. contradiction. Qed.

Lemma Clean_in_dist (n : string) :
  plainName n ->
  Filepath.Clean ("/github/workspace/dist/" +:+ n) = "/github/workspace/dist/" +:+ n
  /\ Filepath.Clean ("dist/" +:+ n) = "dist/" +:+ n.
Proof.
  intros Hn. split.
  - unfold Filepath.Clean. cbv [String.append]. fold String.append.
    cbn [Ascii.eqb Bool.eqb Filepath.Separator Filepath.cleanLoop Filepath.copyElem andb orb negb length Nat.eqb].
    rewrite cleanLoop_plain by exact Hn.
    cbn [andb orb negb length Nat.eqb].
    match goal with
    | |- match ?l with [] => _ | _ :: _ => _ end = _ =>
        destruct l eqn:Hl; [exfalso; revert Hl; apply rev_app_not_nil; discriminate|]
    end.
    rewrite <- Hl. rewrite string_of_rev_app. reflexivity.
  - unfold Filepath.Clean. cbv [String.append]. fold String.append.
    cbn [Ascii.eqb Bool.eqb Filepath.Separator Filepath.cleanLoop Filepath.copyElem andb orb negb length Nat.eqb].
    rewrite cleanLoop_plain by exact Hn.
    cbn [andb orb negb length Nat.eqb].
    match goal with
    | |- match ?l with [] => _ | _ :: _ => _ end = _ =>
        destruct l eqn:Hl; [exfalso; revert Hl; apply rev_app_not_nil; discriminate|]
    end.
    rewrite <- Hl. rewrite string_of_rev_app. reflexivity.
Qed.

Lemma Count_append (a b : string) (sep : ascii) :
  Strings.Count (a +:+ b) sep = Strings.Count a sep + Strings.Count b sep.
Proof.
  induction a as [|c a IH]; [reflexivity|].
  change (String c a +:+ b) with (String c (a +:+ b)).
  cbn [Strings.Count]. rewrite IH. lia.
Qed.

Lemma length_append (a b : string) :
  String.length (a +:+ b) = String.length a + String.length b.
Proof.
  induction a as [|c a IH]; [reflexivity|].
  change (String c a +:+ b) with (String c (a +:+ b)).
  cbn [String.length]. now rewrite IH.
Qed.

Lemma Split_plain (n : string) :
  Strings.Count n "/" = 0 -> Strings.Split n "/" = [n].
Proof.
  induction n as [|c n IH]; [reflexivity|].
  cbn [Strings.Count Strings.Split].
  destruct (Ascii.eqb c "/"); [discriminate|].
  intros Hc. now rewrite IH.
Qed.

Lemma components_in_dist (n : string) :
  plainName n ->
  Sim.components ("/github/workspace/dist/" +:+ n) = ["github"; "workspace"; "dist"; n]
  /\ Sim.components ("/github/workspace/dist") = ["github"; "workspace"; "dist"].
Proof.
  intros [Hc Hlen]. split; [|reflexivity].
  unfold Sim.components. cbv [String.append]. fold String.append.
  cbn [Strings.Split Ascii.eqb Bool.eqb].
  rewrite Split_plain by exact Hc.
  cbn [filter String.eqb negb Ascii.eqb Bool.eqb].
  destruct n; [cbn in Hlen; lia|]. reflexivity.
Qed.

(** The two binaries are distinct names, the Linux one first. *)
Lemma binary_names_order (base : string) :
  String.eqb (base +:+ "-linux-amd64") (base +:+ "-windows-arm64.exe") = false
  /\ String.ltb (base +:+ "-windows-arm64.exe") (base +:+ "-linux-amd64") = false.
Proof.
  unfold String.ltb. induction base as [|c base [IHeq IHlt]]; [split; reflexivity|].
  change (String c base +:+ ?x) with (String c (base +:+ x)).
  cbn [String.eqb String.compare].
  rewrite Ascii.eqb_refl.
  assert (Hcc : Ascii.compare c c = Eq) by (unfold Ascii.compare; apply N.compare_refl).
  rewrite Hcc. split; assumption.
Qed.

Lemma binary_names_plain (base : string) :
  Strings.Count base "/" = 0 ->
  plainName (base +:+ "-linux-amd64") /\ plainName (base +:+ "-windows-arm64.exe").
Proof.
  intros Hc. unfold plainName. rewrite !Count_append, !length_append, Hc.
  cbn. repeat split; lia.
Qed.

Lemma resolve_in_dist (n : string) :
  plainName n ->
  Sim.resolve "/github/workspace" ("/github/workspace/dist/" +:+ n)
  = "/github/workspace/dist/" +:+ n.
Proof.
  intros Hn.
  change ("/github/workspace/dist/" +:+ n) with (String "/" ("github/workspace/dist/" +:+ n)).
  unfold Sim.resolve.
  change (String "/" ("github/workspace/dist/" +:+ n)) with ("/github/workspace/dist/" +:+ n).
  now apply Clean_in_dist.
Qed.

(** The compile step on the simulated machine, writing into dist. *)
Lemma exec_build_in_dist (n ldflags pkg : string) (env : option (list string))
  (root : Sim.Node) :
  plainName n ->
  Sim.exec {| Name := "go";
              Args := ["build"; "-buildmode"; "exe"; "-ldflags"; ldflags; "-o";
                       "/github/workspace/dist/" +:+ n; pkg];
              Env := env; Dir := "" |}
           {| Sim.cwd := "/github/workspace"; Sim.root := root |}
  = match Sim.put ["github"; "workspace"; "dist"; n] Sim.Regular root with
    | Some root' => (Sim.ok "", {| Sim.cwd := "/github/workspace"; Sim.root := root' |})
    | None => (Sim.fails "1", {| Sim.cwd := "/github/workspace"; Sim.root := root |})
    end.
Proof.
  intros Hn. unfold Sim.exec.
  cbn [Name Args Dir Sim.cwd Sim.root String.eqb].
  rewrite resolve_in_dist by exact Hn.
  destruct (components_in_dist n Hn) as [-> _].
  reflexivity.
Qed.

(** The build command of a target in the scenario, spelled out. *)
Lemma buildCmd_in_scenario (base kernel arch name : string) :
  plainName name ->
  buildFileName base kernel arch false = name ->
  let env := inputsFor base "linux/amd64,windows/arm64" "false" in
  buildCmd env (Strings.ReplaceAll (Getenv env "INPUT_PACKAGE") " " "")
    (Strings.ReplaceAll (Getenv env "INPUT_DEST") " " "") kernel arch
    (Getenv env "INPUT_LDFLAGS") false
  = {| Name := "go";
       Args := ["build"; "-buildmode"; "exe"; "-ldflags"; ""; "-o";
                "/github/workspace/dist/" +:+ name; "."];
       Env := Some (Environ env ++ ["GOOS=" +:+ kernel; "GOARCH=" +:+ arch]);
       Dir := "" |}.
Proof.
  intros Hn Hname env. unfold buildCmd, withEnv, Command. cbn [Name Args Dir Env].
  f_equal. do 6 f_equal.
  change (Getenv env "INPUT_NAME") with base. rewrite Hname.
  change (Filepath.Join _) with (Filepath.Clean ("/github/workspace/dist/" +:+ name)).
  f_equal. now apply Clean_in_dist.
Qed.

(** C5 (as the code has it): end to end on the simulated checkout, with
    the targets "linux/amd64,windows/arm64", compress = false and any base
    name without separator, the run ends well, the destination directory
    ends up containing exactly the two files {base}-linux-amd64 and
    {base}-windows-arm64.exe, and the structured output names the
    destination directory itself and then the two files. *)
Theorem two_targets_on_checkout (base : string) :
  let env := inputsFor base "linux/amd64,windows/arm64" "false" in
  let run := main env noUnicode checkout in
  let name1 := base +:+ "-linux-amd64" in
  let name2 := base +:+ "-windows-arm64.exe" in
  Strings.Count base "/" = 0 ->
  outcome run = Ret tt
  /\ Sim.at_ (final run) "/github/workspace" "dist"
     = Some (Sim.Directory [(name1, Sim.Regular); (name2, Sim.Regular)])
  /\ Sim.listing (final run) "dist" = [name1; name2]
  /\ lastPrinted (events run)
     = Some (setOutput ["dist"; "dist/" +:+ name1; "dist/" +:+ name2] +:+ Strings.nl).
Proof.
  intros env run name1 name2 Hbase.
  destruct (binary_names_plain base Hbase) as [Hn1 Hn2].
  destruct (binary_names_order base) as [Heqb Hltb]. fold name1 name2 in Heqb, Hltb.
  set (m1 := {| Sim.cwd := "/github/workspace";
                Sim.root :=
                  Sim.Directory
                    [("github",
                      Sim.Directory
                        [("workspace",
                          Sim.Directory
                            [("README.md", Sim.Regular);
                             ("dist", Sim.Directory [(name1, Sim.Regular)]);
                             ("main.go", Sim.Regular)])])] |}).
  set (m2 := {| Sim.cwd := "/github/workspace";
                Sim.root :=
                  Sim.Directory
                    [("github",
                      Sim.Directory
                        [("workspace",
                          Sim.Directory
                            [("README.md", Sim.Regular);
                             ("dist", Sim.Directory [(name1, Sim.Regular);
                                                     (name2, Sim.Regular)]);
                             ("main.go", Sim.Regular)])])] |}).
  subst env.
  destruct (two_target_run (inputsFor base "linux/amd64,windows/arm64" "false")
              noUnicode checkout m1 m2 m2
              (Sim.ok "") (Sim.ok "")
              (Sim.ok (Strings.Join [name1; name2] Strings.nl)))
    as (Hout & Hfinal & _ & Hlast); try reflexivity.
  - rewrite (buildCmd_in_scenario base "linux" "amd64" name1 Hn1 eq_refl).
    change (os_Run ?c ?m) with (Sim.exec c m). unfold checkout.
    rewrite exec_build_in_dist by exact Hn1. reflexivity.
  - rewrite (buildCmd_in_scenario base "windows" "arm64" name2 Hn2).
    2:{ unfold buildFileName. cbn [String.eqb Ascii.eqb Bool.eqb].
        now rewrite append_assoc. }
    change (os_Run ?c ?m) with (Sim.exec c m). unfold m1.
    rewrite exec_build_in_dist by exact Hn2.
    cbn [Sim.put Sim.assoc Sim.insertSorted String.eqb Ascii.eqb Bool.eqb
           default from_option id].
    rewrite Heqb, Hltb. reflexivity.
  - fold run in Hout, Hfinal, Hlast. rewrite Hfinal.
    repeat split; try assumption; try reflexivity.
    rewrite Hlast. do 2 f_equal.
    change (os_Tree m2 ?d) with (NodeDir [(name1, NodeFile); (name2, NodeFile)]).
    cbv [Walk walk collect isSkipDir isSkipAll orb app fst].
    change (Strings.ReplaceAll (Getenv _ "INPUT_DEST") " " "") with "dist".
    change (Filepath.Join ["dist"; name1]) with (Filepath.Clean ("dist/" +:+ name1)).
    change (Filepath.Join ["dist"; name2]) with (Filepath.Clean ("dist/" +:+ name2)).
    destruct (Clean_in_dist name1 Hn1) as [_ ->].
    destruct (Clean_in_dist name2 Hn2) as [_ ->].
    reflexivity.
Qed.

(** The base name "app" has no separator. *)
Lemma two_targets_on_checkout_witness :
  lastPrinted (events (main (inputs "linux/amd64,windows/arm64" "false") noUnicode checkout))
  = Some ("::set-output name=files::dist dist/app-linux-amd64 dist/app-windows-arm64.exe"
          +:+ Strings.nl).
Proof.
  apply (two_targets_on_checkout "app"). reflexivity.
Defined.

(** ** File names and paths of the artifacts *)

Lemma append_sep_inj (a a' b b' : string) (c : ascii) :
  Strings.Count a c = 0 -> Strings.Count a' c = 0 ->
  a +:+ String c b = a' +:+ String c b' ->
  a = a' /\ b = b'.
Proof.
  revert a'. induction a as [|x a IH]; intros [|y a'] Ha Ha' Heq.
  - injection Heq as ->. split; reflexivity.
  - change (String c b = String y (a' +:+ String c b')) in Heq.
    injection Heq as <- _. cbn [Strings.Count] in Ha'.
    rewrite Ascii.eqb_refl in Ha'. discriminate Ha'.
  - change (String x (a +:+ String c b) = String c b') in Heq.
    injection Heq as -> _. cbn [Strings.Count] in Ha.
    rewrite Ascii.eqb_refl in Ha. discriminate Ha.
  - change (String x (a +:+ String c b) = String y (a' +:+ String c b')) in Heq.
    injection Heq as -> Heq. cbn [Strings.Count] in Ha, Ha'.
    destruct (Ascii.eqb y c); [discriminate Ha|].
    destruct (IH a' Ha Ha' Heq) as [-> ->]. split; reflexivity.
Qed.

Lemma append_inj_r (a b c : string) : a +:+ c = b +:+ c -> a = b.
Proof.
  revert b. induction a as [|x a IH]; intros [|y b] Heq.
  - reflexivity.
  - apply (f_equal String.length) in Heq.
    change ("" +:+ c) with c in Heq. rewrite length_append in Heq.
    cbn [String.length] in Heq. lia.
  - apply (f_equal String.length) in Heq.
    change ("" +:+ c) with c in Heq. rewrite length_append in Heq.
    cbn [String.length] in Heq. lia.
  - change (String x (a +:+ c) = String y (b +:+ c)) in Heq.
    injection Heq as -> Heq. now rewrite (IH b Heq).
Qed.

Lemma buildFileName_inj (base kernel arch kernel' arch' : string) :
  Strings.Count kernel "-" = 0 ->
  Strings.Count kernel' "-" = 0 ->
  buildFileName base kernel arch false = buildFileName base kernel' arch' false ->
  kernel = kernel' /\ arch = arch'.
Proof.
  intros Hk Hk'. unfold buildFileName.
  destruct (String.eqb kernel "windows") eqn:Hw;
    destruct (String.eqb kernel' "windows") eqn:Hw'.
  - intros Heq. apply append_inj_r in Heq. apply String.app_inj in Heq.
    injection Heq as Heq. now apply (append_sep_inj _ _ _ _ "-").
  - rewrite !append_assoc. intros Heq. apply String.app_inj in Heq.
    injection Heq as Heq.
    apply (append_sep_inj _ _ _ _ "-") in Heq as [-> _]; [|assumption..].
    congruence.
  - rewrite !append_assoc. intros Heq. apply String.app_inj in Heq.
    injection Heq as Heq.
    apply (append_sep_inj _ _ _ _ "-") in Heq as [-> _]; [|assumption..].
    congruence.
  - intros Heq. apply String.app_inj in Heq.
    injection Heq as Heq. now apply (append_sep_inj _ _ _ _ "-").
Qed.

(** X16: without packaging, two different targets whose kernels hold no "-"
    get different binary file names, whatever the base name: the builds of
    different targets never overwrite each other's binary. *)
Theorem distinct_targets_distinct_binaries (base kernel arch kernel' arch' : string) :
  Strings.Count kernel "-" = 0 ->
  Strings.Count kernel' "-" = 0 ->
  (kernel, arch) <> (kernel', arch') ->
  String.eqb (buildFileName base kernel arch false)
    (buildFileName base kernel' arch' false) = false.
Proof.
  intros Hk Hk' Hne. apply String.eqb_neq. intros Heq.
  destruct (buildFileName_inj base kernel arch kernel' arch' Hk Hk' Heq) as [-> ->].
  now apply Hne.
Qed.

Lemma copyElem_through (rooted : bool) (a b : string) (out : list ascii) (dotdot : nat) :
  Strings.Count a "/" = 0 ->
  Filepath.copyElem rooted (a +:+ String "/" b) out dotdot
  = Filepath.cleanLoop rooted b (rev (list_ascii_of_string a) ++ out) dotdot.
Proof.
  revert out. induction a as [|c a IH]; intros out Hc.
  - reflexivity.
  - change (String c a +:+ String "/" b) with (String c (a +:+ String "/" b)).
    cbn [Strings.Count] in Hc. cbn [Filepath.copyElem list_ascii_of_string rev].
    unfold Filepath.Separator.
    destruct (Ascii.eqb c "/") eqn:Hsep; [discriminate Hc|].
    rewrite IH by exact Hc. now rewrite <- app_assoc.
Qed.

(** The main loop of [Clean] on an entry name that ends the path. *)
Lemma cleanLoop_entry (rooted : bool) (n : string) (out : list ascii) (dotdot : nat) :
  entryName n ->
  Filepath.cleanLoop rooted n out dotdot =
    rev (list_ascii_of_string n)
    ++ (if (rooted && negb (Nat.eqb (length out) 1))
           || (negb rooted && negb (Nat.eqb (length out) 0))
        then Filepath.Separator :: out else out).
Proof.
  intros (Hc & Hempty & Hdot & Hdotdot).
  destruct n as [|c n]; [contradiction|].
  cbn [Strings.Count] in Hc.
  destruct (Ascii.eqb c "/") eqn:Hs0; [discriminate Hc|].
  cbn [Filepath.cleanLoop]. unfold Filepath.Separator. rewrite Hs0.
  assert (Hreal : forall out',
             Filepath.copyElem rooted n (c :: out') dotdot
             = rev (list_ascii_of_string (String c n)) ++ out').
  { intros out'. rewrite copyElem_plain by exact Hc.
    cbn [list_ascii_of_string rev]. now rewrite <- app_assoc. }
  destruct (Ascii.eqb c ".") eqn:Hd0; [|apply Hreal].
  apply Ascii.eqb_eq in Hd0. subst c.
  destruct n as [|c1 n]; [contradiction|].
  cbn [Strings.Count] in Hc.
  destruct (Ascii.eqb c1 "/") eqn:Hs1; [discriminate Hc|].
  destruct (Ascii.eqb c1 ".") eqn:Hd1; [|apply Hreal].
  apply Ascii.eqb_eq in Hd1. subst c1.
  destruct n as [|c2 n]; [contradiction|].
  cbn [Strings.Count] in Hc.
  destruct (Ascii.eqb c2 "/") eqn:Hs2; [discriminate Hc|].
  apply Hreal.
Qed.

(** The main loop of [Clean] on an entry name followed by more of the
    path. *)
Lemma cleanLoop_entry_then (rooted : bool) (a b : string) (out : list ascii)
  (dotdot : nat) :
  entryName a ->
  Filepath.cleanLoop rooted (a +:+ String "/" b) out dotdot =
    Filepath.cleanLoop rooted b
      (rev (list_ascii_of_string a)
       ++ (if (rooted && negb (Nat.eqb (length out) 1))
              || (negb rooted && negb (Nat.eqb (length out) 0))
           then Filepath.Separator :: out else out)) dotdot.
Proof.
  intros (Hc & Hempty & Hdot & Hdotdot).
  destruct a as [|c a]; [contradiction|].
  change (String c a +:+ String "/" b) with (String c (a +:+ String "/" b)).
  cbn [Strings.Count] in Hc.
  destruct (Ascii.eqb c "/") eqn:Hs0; [discriminate Hc|].
  cbn [Filepath.cleanLoop]. unfold Filepath.Separator. rewrite Hs0.
  assert (Hreal : forall out',
             Filepath.copyElem rooted (a +:+ String "/" b) (c :: out') dotdot
             = Filepath.cleanLoop rooted b
                 (rev (list_ascii_of_string (String c a)) ++ out') dotdot).
  { intros out'. rewrite copyElem_through by exact Hc.
    cbn [list_ascii_of_string rev]. now rewrite <- app_assoc. }
  destruct (Ascii.eqb c ".") eqn:Hd0; [|apply Hreal].
  apply Ascii.eqb_eq in Hd0. subst c.
  destruct a as [|c1 a]; [contradiction|].
  change (String c1 a +:+ String "/" b) with (String c1 (a +:+ String "/" b)).
  cbv iota. cbn [Strings.Count] in Hc.
  destruct (Ascii.eqb c1 "/") eqn:Hs1; [discriminate Hc|].
  destruct (Ascii.eqb c1 ".") eqn:Hd1; [|apply Hreal].
  apply Ascii.eqb_eq in Hd1. subst c1.
  destruct a as [|c2 a]; [contradiction|].
  change (String c2 a +:+ String "/" b) with (String c2 (a +:+ String "/" b)).
  cbv iota. cbn [Strings.Count] in Hc.
  destruct (Ascii.eqb c2 "/") eqn:Hs2; [discriminate Hc|].
  apply Hreal.
Qed.

Lemma string_of_list_ascii_app (l1 l2 : list ascii) :
  string_of_list_ascii (l1 ++ l2) = string_of_list_ascii l1 +:+ string_of_list_ascii l2.
Proof.
  induction l1 as [|c l1 IH]; [reflexivity|].
  cbn [app string_of_list_ascii]. now rewrite IH.
Qed.

(** Joining two entry names gives the first, the separator and the
    second. *)
Lemma Join_entries (dir n : string) :
  entryName dir -> entryName n ->
  Filepath.Join [dir; n] = dir +:+ "/" +:+ n.
Proof.
  intros Hdir Hn.
  assert (Hshape : exists c dir', dir = String c dir' /\ Ascii.eqb c "/" = false).
  { destruct Hdir as (Hc & Hne & _). destruct dir as [|c dir']; [contradiction|].
    exists c, dir'. split; [reflexivity|]. cbn [Strings.Count] in Hc.
    destruct (Ascii.eqb c "/"); [discriminate Hc | reflexivity]. }
  destruct Hshape as (c & dir' & Hd & Hfirst).
  assert (Hjoin : Filepath.Join [dir; n]
                  = match Filepath.cleanLoop false (dir +:+ String "/" n) [] 0 with
                    | [] => "."
                    | _ :: _ =>
                        string_of_list_ascii
                          (rev (Filepath.cleanLoop false (dir +:+ String "/" n) [] 0))
                    end).
  { rewrite Hd.
    change (Filepath.Join [String c dir'; n])
      with (Filepath.Clean (String c (dir' +:+ String "/" n))).
    unfold Filepath.Clean, Filepath.Separator. rewrite Hfirst. reflexivity. }
  rewrite Hjoin. clear Hjoin.
  rewrite cleanLoop_entry_then by exact Hdir.
  rewrite cleanLoop_entry by exact Hn.
  cbn [andb orb negb length Nat.eqb].
  assert (Hlen : Nat.eqb (length (rev (list_ascii_of_string dir) ++ [])) 0 = false).
  { rewrite Hd. cbn [list_ascii_of_string rev]. rewrite !length_app. cbn [length].
    apply Nat.eqb_neq. lia. }
  rewrite Hlen. cbn [negb].
  match goal with
  | |- match ?l with [] => _ | _ :: _ => _ end = _ =>
      destruct l eqn:Hl; [exfalso; revert Hl; apply rev_app_not_nil; discriminate|]
  end.
  rewrite <- Hl. rewrite string_of_rev_app.
  rewrite app_nil_r. cbn [rev]. rewrite rev_involutive, string_of_list_ascii_app.
  rewrite string_of_list_ascii_of_string. unfold Filepath.Separator.
  now rewrite append_assoc.
Qed.

(** X17: for a destination directory that holds files only, the walk at the end
    of [main] yields the destination itself and then, for each file in the
    order of the directory, the destination, a separator and the name. *)
Theorem flat_directory_paths (destDir : string) (names : list string) :
  entryName destDir ->
  Forall entryName names ->
  Walk collect (NodeDir (map (fun name => (name, NodeFile)) names)) destDir []
  = (destDir :: map (fun name => destDir +:+ "/" +:+ name) names, None).
Proof.
  intros Hdir Hnames. rewrite Walk_collect_paths. cbn [app treePaths]. do 2 f_equal.
  induction Hnames as [|name names Hname _ IH]; [reflexivity|].
  cbn [map treePaths app]. rewrite IH. now rewrite Join_entries.
Qed.

(** ** The properties on concrete machines *)

(** On the machine where the compiler fails, [build] stops after the
    compile step. *)
Lemma compile_failure_is_fatal_witness :
  exists line,
    build (inputs "linux/amd64" "true") "" "dist" linux_amd64 "" true (toolFails "go")
    = (Exit 1%Z, toolFails "go",
       [EvPrint line;
        EvExec (buildCmd (inputs "linux/amd64" "true") "" "dist" "linux" "amd64" "" true)
          Scripted.failed;
        EvPrint ("An error occurred during build: exit status 1" +:+ Strings.nl)]).
Proof.
  apply (compile_failure_is_fatal (inputs "linux/amd64" "true") "" "dist" linux_amd64 ""
           true (toolFails "go") (toolFails "go") Scripted.failed "exit status 1");
    reflexivity.
Defined.

(** On the machine where [cp] fails, [build] stops at the copy of
    README.md. *)
Lemma copy_failure_is_fatal_witness :
  outcome (build (inputs "linux/amd64" "true") "" "dist" linux_amd64 "" true
             (toolFails "cp"))
  = Exit 1%Z
  /\ commands (events (build (inputs "linux/amd64" "true") "" "dist" linux_amd64 "" true
                         (toolFails "cp")))
     = [buildCmd (inputs "linux/amd64" "true") "" "dist" "linux" "amd64" "" true;
        Command "cp" ["README.md"; "/github/workspace/dist/README.md"]].
Proof.
  destruct (copy_failure_is_fatal (inputs "linux/amd64" "true") "" "dist" linux_amd64 ""
              (toolFails "cp") (toolFails "cp") (toolFails "cp")
              Scripted.ok Scripted.failed "exit status 1")
    as (Hout & _ & Hexecs & _); [reflexivity.. |].
  split; [exact Hout|]. unfold commands. rewrite Hexecs. reflexivity.
Defined.

(** With a failing compiler and two targets, the run of [main] is the run
    of the first build. *)
Lemma first_target_failure_ends_main_witness :
  main (inputs "linux/amd64,windows/arm64" "false") noUnicode (toolFails "go")
  = build (inputs "linux/amd64,windows/arm64" "false") "" "dist" linux_amd64 "" false
      (toolFails "go").
Proof.
  apply (first_target_failure_ends_main (inputs "linux/amd64,windows/arm64" "false")
           noUnicode "linux/amd64" ["windows/arm64"] "linux" "amd64" [] (toolFails "go")).
  - reflexivity.
  - reflexivity.
  - vm_compute. discriminate.
Defined.

(** Three targets on the machine where every tool succeeds. *)
Lemma one_compile_step_per_target_witness :
  commands (events (main (inputs "linux/amd64,darwin/arm64,windows/386" "false")
                      noUnicode Scripted.happy))
  = [buildCmd (inputs "linux/amd64,darwin/arm64,windows/386" "false") "" "dist"
       "linux" "amd64" "" false;
     buildCmd (inputs "linux/amd64,darwin/arm64,windows/386" "false") "" "dist"
       "darwin" "arm64" "" false;
     buildCmd (inputs "linux/amd64,darwin/arm64,windows/386" "false") "" "dist"
       "windows" "386" "" false;
     Command "ls" ["-alh"; "dist"]].
Proof.
  apply (one_compile_step_per_target
           (inputs "linux/amd64,darwin/arm64,windows/386" "false") noUnicode
           (fun st => st = Scripted.happy) Scripted.happy).
  - reflexivity.
  - change (Forall (fun p => Strings.Count p "/" <> 0)
              ["linux/amd64"; "darwin/arm64"; "windows/386"]).
    repeat (apply List.Forall_cons; [intros Hc; vm_compute in Hc; discriminate Hc|]).
    apply List.Forall_nil.
  - reflexivity.
  - intros c st -> _. split; reflexivity.
Defined.

(** On the machine where [ls] fails, [main] exits after the build. *)
Lemma listing_failure_is_fatal_witness :
  outcome (main (inputs "linux/amd64" "false") noUnicode (toolFails "ls")) = Exit 1%Z
  /\ lastPrinted (events (main (inputs "linux/amd64" "false") noUnicode (toolFails "ls")))
     = Some ("An error occurred during ls operation: exit status 1" +:+ Strings.nl).
Proof.
  pose proof (listing_failure_is_fatal (inputs "linux/amd64" "false") noUnicode
                (toolFails "ls") "exit status 1") as Hmain.
  cbv zeta in Hmain. rewrite Hmain.
  - split; vm_compute; reflexivity.
  - vm_compute. reflexivity.
  - vm_compute. reflexivity.
Defined.

(** On the machine where every tool succeeds and the destination is empty,
    the output line names the destination alone. *)
Lemma output_line_reports_final_tree_witness :
  exists rest,
    fst (Walk collect
           (os_Tree (final (main (inputs "linux/amd64" "false") noUnicode Scripted.happy))
              "dist") "dist" [])
    = "dist" :: rest
    /\ lastPrinted (events (main (inputs "linux/amd64" "false") noUnicode Scripted.happy))
       = Some ("::set-output name=files::" +:+ Strings.Join ("dist" :: rest) " "
               +:+ Strings.nl).
Proof.
  apply (output_line_reports_final_tree (inputs "linux/amd64" "false") noUnicode
           Scripted.happy).
  vm_compute. reflexivity.
Defined.

(** With no variable set at all, [main] panics at once. *)
Lemma missing_targets_panic_witness :
  main [] noUnicode Scripted.happy = (Panic (IndexOutOfRange 1 1), Scripted.happy, []).
Proof.
  apply (missing_targets_panic [] noUnicode "" [] Scripted.happy); reflexivity.
Defined.

(** "false" is not read as true: nothing is packaged. *)
Lemma no_packaging_without_compress_witness :
  stats (events (main (inputs "linux/amd64,windows/arm64" "false") noUnicode
                   (toolFails "tar")))
  = []
  /\ Forall (fun c => Name c = "go" \/ c = Command "ls" ["-alh"; "dist"])
       (commands (events (main (inputs "linux/amd64,windows/arm64" "false") noUnicode
                            (toolFails "tar")))).
Proof.
  apply (no_packaging_without_compress (inputs "linux/amd64,windows/arm64" "false")
           noUnicode (toolFails "tar")).
  reflexivity.
Defined.

(** A configuration with spaces in the package, the destination and the
    linker flags. *)
Lemma configuration_reaches_compile_step_witness :
  option_map Args
    (hd_error (commands (events (main [("INPUT_PLATFORMS", "linux/amd64");
                                       ("INPUT_NAME", "app");
                                       ("INPUT_PACKAGE", " cmd / app ");
                                       ("INPUT_DEST", "di st");
                                       ("INPUT_LDFLAGS", "-s -w");
                                       ("GITHUB_WORKSPACE", "/github/workspace")]
                                   noUnicode Scripted.happy))))
  = Some ["build"; "-buildmode"; "exe"; "-ldflags"; "-s -w"; "-o";
          "/github/workspace/dist/app-linux-amd64"; "./cmd/app"].
Proof.
  destruct (configuration_reaches_compile_step
              [("INPUT_PLATFORMS", "linux/amd64"); ("INPUT_NAME", "app");
               ("INPUT_PACKAGE", " cmd / app "); ("INPUT_DEST", "di st");
               ("INPUT_LDFLAGS", "-s -w"); ("GITHUB_WORKSPACE", "/github/workspace")]
              noUnicode "linux/amd64" [] "linux" "amd64" [] Scripted.happy)
    as (Hfirst & _ & _); [reflexivity | reflexivity |].
  rewrite Hfirst. vm_compute. reflexivity.
Defined.

(** A target written with spaces around and inside its parts. *)
Lemma platformMap_of_pair_witness :
  platformMap " li nux / amd64 " Scripted.happy
  = (Ret (<["arch" := "amd64"]> {["kernel" := "linux"]}), Scripted.happy, []).
Proof.
  apply (platformMap_of_pair " li nux " " amd64 " Scripted.happy); reflexivity.
Defined.

(** The two binaries of the end-to-end scenario have different names. *)
Lemma distinct_targets_distinct_binaries_witness :
  String.eqb (buildFileName "app" "linux" "amd64" false)
    (buildFileName "app" "windows" "arm64" false) = false.
Proof.
  apply (distinct_targets_distinct_binaries "app" "linux" "amd64" "windows" "arm64").
  - reflexivity.
  - reflexivity.
  - discriminate.
Defined.

(** A destination with three files, one of them hidden. *)
Lemma flat_directory_paths_witness :
  Walk collect (NodeDir [("a", NodeFile); ("app.exe", NodeFile); (".env", NodeFile)])
    "dist" []
  = (["dist"; "dist/a"; "dist/app.exe"; "dist/.env"], None).
Proof.
  apply (flat_directory_paths "dist" ["a"; "app.exe"; ".env"]).
  - repeat split; discriminate.
  - repeat constructor; discriminate.
Defined.
